(** * GROK_MCP: the tool dispatcher and payload builders of [src/index.ts]

    A shallow embedding of the [CallToolRequest] handler registered by
    [GrokAIServer.setupToolHandlers] and of the four tool handlers
    [handleAnalyzeTransaction], [handleAnalyzeAddress], [handleAnalyzeImage]
    and [handleAskGrok], followed by the properties of the specification
    that concern them.

    Conventions of the embedding.
    - A JavaScript string is a [string]: the sequence of its code units
      (those below 256).  Concatenation, emptiness and indexing agree with
      the JavaScript operations.
    - A JavaScript value that can reach the server (a JSON value, or
      [undefined]) is a [value].  An object is the list of its own
      enumerable properties in the order of [Object.entries].
    - The loosely typed argument bag [request.params.arguments] is a
      [gmap string value]; a property that is absent reads as [undefined].
    - What the program gets from its platform and does not define itself
      (the number type of the engine and its rendering, [JSON.parse], the
      texts of the engine's [TypeError]s, the upstream service behind
      [axios.post]) is a [Platform]; every theorem holds for every one.
    - Effects are explicit: a computation yields the trace of its observable
      events (each [axios.post], each [console.error]) and either a value
      or a thrown [Error]. *)

From Stdlib Require Import ZArith QArith_base Ascii.
From stdpp Require Import base option list strings gmap pretty.

Set Warnings "-register-all".

(** ** Data model *)

(** A thrown [Error] object; the handlers only ever read its [message]. *)
Record Error := mkError { message : string }.

(** A JavaScript value, over the engine's type of numbers. *)
Inductive value (number : Type) : Type :=
  | VUndef
  | VNull
  | VBool (b : bool)
  | VNum (n : number)
  | VStr (s : string)
  | VArr (elements : list (value number))
  | VObj (props : list (string * value number)).

Arguments VUndef {number}.
Arguments VNull {number}.
Arguments VBool {number} b.
Arguments VNum {number} n.
Arguments VStr {number} s.
Arguments VArr {number} elements.
Arguments VObj {number} props.

(** Normal or abrupt completion of an evaluation. *)
Inductive completion (A : Type) : Type :=
  | Normal (a : A)
  | Throw (e : Error).

Arguments Normal {A} a.
Arguments Throw {A} e.

(** A content part of a user message:
    [{type: "text", text}] or
    [{type: "image_url", image_url: {url, detail}}]. *)
Inductive ContentPart :=
  | TextPart (text : string)
  | ImageUrlPart (url : string) (detail : string).

(** The [content] of a chat message: a plain string (system messages) or an
    array of parts (user messages). *)
Inductive MessageContent :=
  | Plain (s : string)
  | Parts (parts : list ContentPart).

Record ChatMessage := { role : string; content : MessageContent }.

(** The body of the POST to the chat-completions endpoint. *)
Record ChatRequest :=
  { model : string; messages : list ChatMessage; temperature : Q }.

(** The sites at which the engine itself throws a [TypeError] in this
    program. *)
Inductive TypeErrorKind :=
  | NullishToObject                                   (* Object.keys(null) *)
  | ObjectToPrimitive                                 (* `${value}` *)
  | ReadPropertyOfNullish (is_null : bool) (prop : string). (* undefined.x *)

(** What the server is given by the platform it runs on. *)
Class Platform := {
  number : Type;
  Number_toString : number → string;
  JSON_parse : string → completion (value number);
  TypeError_message : TypeErrorKind → string;
  axios_post : ChatRequest → completion (value number);
}.

Abbreviation val := (value number).

(** [axios_post req] is [response.data] when the POST of [req] resolves, and
    the error axios throws otherwise. *)

(** Observable events. *)
Inductive event :=
  | Post (req : ChatRequest)
  | ConsoleError (label : string) (e : Error).

(** The tool result [{content: [{type: 'text', text}], isError?}].  On the
    success path [text] is whatever the upstream put at
    [choices[0].message.content]. *)
Inductive ToolContent {number : Type} :=
  | ToolText (text : value number).
Arguments ToolContent number : clear implicits.

Record ToolResult {number : Type} :=
  { result_content : list (ToolContent number); isError : option bool }.
Arguments ToolResult number : clear implicits.

Inductive ErrorCode := InvalidParams | MethodNotFound.

(** [new McpError(code, message)]. *)
Record McpError := { code : ErrorCode; mcp_message : string }.

(** How a tool call ends at the protocol layer: the handler's promise
    rejects with an [McpError], rejects with some other error, or resolves
    with a tool result. *)
Inductive outcome {number : Type} :=
  | Raised (e : McpError)
  | Uncaught (e : Error)
  | Returned (r : ToolResult number).
Arguments outcome number : clear implicits.

(** ** Effects: a trace of events and a completion *)

Definition M (A : Type) : Type := (list event * completion A)%type.

Definition pure {A} (a : A) : M A := ([], Normal a).

Definition lift {A} (c : completion A) : M A := ([], c).

Definition bind {A B} (m : M A) (k : A → M B) : M B :=
  match m with
  | (t, Normal a) => let '(t', r) := k a in (t ++ t', r)
  | (t, Throw e) => (t, Throw e)
  end.

(** [try { body } catch (e) { handler(e) }] *)
Definition try_catch {A} (body : M A) (handler : Error → M A) : M A :=
  match body with
  | (t, Normal a) => (t, Normal a)
  | (t, Throw e) => let '(t', r) := handler e in (t ++ t', r)
  end.

#[global] Instance completion_bind : MBind completion := λ A B k c,
  match c with Normal a => k a | Throw e => Throw e end.

Definition console_error (label : string) (e : Error) : M unit :=
  ([ConsoleError label e], Normal tt).

#[global] Instance M_ret : MRet M := @pure.
#[global] Instance M_bind : MBind M := λ A B k m, bind m k.

(** The requests handed to [axios.post], in order. *)
Definition posts (t : list event) : list ChatRequest :=
  omap (λ ev, match ev with Post req => Some req | _ => None end) t.

(** ** The JavaScript operations the handlers use *)

Definition nl : string := String (Ascii.ascii_of_nat 10) "".

(** [typeof v === 'string' ? v : undefined] *)
Definition as_string {number} (v : value number) : option string :=
  match v with VStr s => Some s | _ => None end.

(** [args.k]: an absent property reads as [undefined]. *)
Definition prop {number} (args : gmap string (value number)) (k : string)
  : value number :=
  default VUndef (args !! k).

(** Truthiness of an optional string: [undefined] and [""] are falsy. *)
Definition truthy (s : option string) : bool :=
  match s with Some (String _ _) => true | _ => false end.

(** The code units of a string, each as a string of length one. *)
Fixpoint units (s : string) : list string :=
  match s with
  | EmptyString => []
  | String c r => String c "" :: units r
  end.

(** Own property lookup. *)
Fixpoint own {number} (props : list (string * value number)) (k : string)
  : option (value number) :=
  match props with
  | [] => None
  | (k', v) :: rest => if decide (k' = k) then Some v else own rest k
  end.

Section Engine.
Context {P : Platform}.

Definition TypeError (k : TypeErrorKind) : Error :=
  mkError (TypeError_message k).

(** [Object.entries(v)]: [ToObject] throws on [undefined] and [null]; a
    number or boolean wrapper has no own enumerable property; a string
    has its code units and an array its elements under their indices. *)
Definition Object_entries (v : val) : completion (list (string * val)) :=
  match v with
  | VUndef | VNull => Throw (TypeError NullishToObject)
  | VBool _ | VNum _ => Normal []
  | VStr s => Normal (imap (λ i u, (pretty i, VStr u)) (units s))
  | VArr l => Normal (imap (λ i x, (pretty i, x)) l)
  | VObj props => Normal props
  end.

(** [Object.keys(v)] *)
Definition Object_keys (v : val) : completion (list string) :=
  match Object_entries v with
  | Normal es => Normal (es.*1)
  | Throw e => Throw e
  end.

(** [`${v}`], the abstract operation ToString.  An array is joined with
    commas, [undefined] and [null] elements giving the empty string.  An
    object without an own [toString] property inherits
    [Object.prototype.toString]; an own [toString] property of a JSON
    object is never callable, and the inherited [valueOf] returns the
    object itself, so the conversion then throws. *)
Fixpoint ToString (v : val) : completion string :=
  match v with
  | VUndef => Normal "undefined"
  | VNull => Normal "null"
  | VBool true => Normal "true"
  | VBool false => Normal "false"
  | VNum n => Normal (Number_toString n)
  | VStr s => Normal s
  | VArr l =>
      let element (x : val) : completion string :=
        match x with
        | VUndef | VNull => Normal ""
        | _ => ToString x
        end in
      (fix join (l : list val) : completion string :=
         match l with
         | [] => Normal ""
         | [x] => element x
         | x :: rest =>
             match element x with
             | Throw e => Throw e
             | Normal s =>
                 match join rest with
                 | Throw e => Throw e
                 | Normal r => Normal (s +:+ "," +:+ r)
                 end
             end
         end) l
  | VObj props =>
      match own props "toString" with
      | Some _ => Throw (TypeError ObjectToPrimitive)
      | None => Normal "[object Object]"
      end
  end.

(** [v.p] for a property name [p] that no built-in prototype defines
    (the source reads [choices], [message] and [content]). *)
Definition get (v : val) (p : string) : completion val :=
  match v with
  | VUndef => Throw (TypeError (ReadPropertyOfNullish false p))
  | VNull => Throw (TypeError (ReadPropertyOfNullish true p))
  | VObj props => Normal (default VUndef (own props p))
  | _ => Normal VUndef
  end.

(** [v[i]] for an index [i]. *)
Definition get_index (v : val) (i : nat) : completion val :=
  match v with
  | VUndef => Throw (TypeError (ReadPropertyOfNullish false (pretty i)))
  | VNull => Throw (TypeError (ReadPropertyOfNullish true (pretty i)))
  | VObj props => Normal (default VUndef (own props (pretty i)))
  | VArr l => Normal (default VUndef (l !! i))
  | VStr s => Normal (from_option VStr VUndef (units s !! i))
  | _ => Normal VUndef
  end.

(** [await axios.post(url, req, {headers})]; the endpoint and the headers
    are the same at every call site. *)
Definition post (req : ChatRequest) : M val :=
  ([Post req], axios_post req).

(** [response.data.choices[0].message.content] *)
Definition first_choice_content (data : val) : completion val :=
  match get data "choices" with
  | Throw e => Throw e
  | Normal choices =>
      match get_index choices 0 with
      | Throw e => Throw e
      | Normal choice =>
          match get choice "message" with
          | Throw e => Throw e
          | Normal msg => get msg "content"
          end
      end
  end.

End Engine.

(** ** The tool registry

    The names, properties and required properties the [ListTools] handler
    declares, in its order (descriptions left out). *)

Record Tool :=
  { tool_name : string; properties : list string; required : list string }.

Definition tools : list Tool :=
  [ {| tool_name := "analyze_transaction";
       properties := ["signature"; "screenshot"; "details"];
       required := ["signature"] |};
    {| tool_name := "analyze_address";
       properties := ["address"; "screenshot"];
       required := ["address"] |};
    {| tool_name := "analyze_image";
       properties := ["image"; "prompt"; "image_url"];
       required := ["prompt"] |};
    {| tool_name := "ask_grok";
       properties := ["question"; "context"; "image"; "image_url"];
       required := ["question"] |} ].

(** ** The tool handlers *)

Section Server.
Context {P : Platform}.

Definition vision_model : string := "grok-2-vision-latest".
Definition text_model : string := "grok-2-latest".

(** [{type: "image_url", image_url: {url: `data:image/jpeg;base64,${b64}`,
    detail: "high"}}] *)
Definition data_url_part (b64 : string) : ContentPart :=
  ImageUrlPart ("data:image/jpeg;base64," +:+ b64) "high".

Definition chat_request (model : string) (systemPrompt : string)
    (userContent : list ContentPart) : ChatRequest :=
  {| model := model;
     messages := [ {| role := "system"; content := Plain systemPrompt |};
                   {| role := "user"; content := Parts userContent |} ];
     temperature := Qmake 7 10 |}.

(** [{content: [{type: 'text', text}]}] *)
Definition success (text : val) : ToolResult number :=
  {| result_content := [ToolText text]; isError := None |}.

(** [{content: [{type: 'text', text: `${prefix}${error.message}`}],
    isError: true}] *)
Definition failure (prefix : string) (error : Error) : ToolResult number :=
  {| result_content := [ToolText (VStr (prefix +:+ message error))];
     isError := Some true |}.

(** What every handler returns after its POST resolved, the text being
    [response.data.choices[0].message.content]. *)
Definition success_result (data : val) : M (ToolResult number) :=
  text ← lift (first_choice_content data);
  mret (success text).

(** The [catch (error)] block every handler ends with. *)
Definition error_result (label prefix : string) (error : Error)
  : M (ToolResult number) :=
  console_error label error;;
  mret (failure prefix error).

(** The loop of [handleAnalyzeTransaction] over [Object.entries(detailsObj)]:
    one line per entry whose key is not ['signature']. *)
Fixpoint append_details (entries : list (string * val))
    (userPromptText : string) : completion string :=
  match entries with
  | [] => Normal userPromptText
  | (key, value) :: rest =>
      if decide (key = "signature") then append_details rest userPromptText
      else
        match ToString value with
        | Throw e => Throw e
        | Normal s =>
            append_details rest
              (userPromptText +:+ "- " +:+ key +:+ ": " +:+ s +:+ nl)
        end
  end.

Definition transaction_system_prompt : string :=
  "You are an expert Solana blockchain analyst. " +:+
  "Analyze the given transaction information and provide detailed insights. " +:+
  "Focus on what the transaction does, which programs it interacts with, and its overall purpose. " +:+
  "If applicable, mention any tokens transferred, their amounts, and the parties involved.".

(** [if (screenshot) { content.push({type: "image_url", ...}) }], the same
    in [handleAnalyzeTransaction] and [handleAnalyzeAddress]. *)
Definition screenshot_parts (screenshot : option string)
  : list ContentPart :=
  match screenshot with
  | Some (String _ _ as s) => [data_url_part s]
  | _ => []
  end.

(** [let detailsObj = {}; if (details) { try { detailsObj =
    JSON.parse(details) } catch (err) { console.error(...) } }] *)
Definition parse_details (details : option string) : M val :=
  match details with
  | Some (String _ _ as d) =>
      try_catch (lift (JSON_parse d))
        (λ err, console_error "Error parsing details:" err;;
                mret (VObj []))
  | _ => mret (VObj [])
  end.

(** The text of the user prompt: the signature, then the details if
    [Object.keys(detailsObj)] is not empty. *)
Definition transaction_prompt_text (signature : string) (detailsObj : val)
  : completion string :=
  let userPromptText :=
    "Analyze this Solana transaction: " +:+ signature +:+ nl +:+ nl in
  keys ← Object_keys detailsObj;
  if bool_decide (0 < length keys) then
    entries ← Object_entries detailsObj;
    append_details entries (userPromptText +:+ "Additional details:" +:+ nl)
  else Normal userPromptText.

(** The body [{model, messages, temperature}] of the POST. *)
Definition transaction_payload
    (signature : string) (screenshot : option string) (detailsObj : val)
  : completion ChatRequest :=
  let systemPrompt := transaction_system_prompt in
  userPromptText ← transaction_prompt_text signature detailsObj;
  let userContent :=
    [TextPart userPromptText] ++ screenshot_parts screenshot in
  Normal (chat_request vision_model systemPrompt userContent).

(** The part of [handleAnalyzeTransaction] before its POST. *)
Definition transaction_request
    (signature : string) (screenshot details : option string)
  : M ChatRequest :=
  detailsObj ← parse_details details;
  lift (transaction_payload signature screenshot detailsObj).

Definition handleAnalyzeTransaction
    (signature : string) (screenshot details : option string)
  : M (ToolResult number) :=
  try_catch
    (req ← transaction_request signature screenshot details;
     data ← post req;
     success_result data)
    (error_result "Error in analyze_transaction:"
                  "Error analyzing transaction: ").

Definition address_system_prompt : string :=
  "You are an expert Solana blockchain analyst. Analyze the given address information and provide detailed insights.".

Definition address_request (address : string) (screenshot : option string)
  : ChatRequest :=
  let content :=
    [TextPart ("Analyze this Solana address: " +:+ address)] ++
    screenshot_parts screenshot in
  chat_request vision_model address_system_prompt content.

Definition handleAnalyzeAddress
    (address : string) (screenshot : option string)
  : M (ToolResult number) :=
  try_catch
    (data ← post (address_request address screenshot);
     success_result data)
    (error_result "Error in analyze_address:" "Error analyzing address: ").

(** The image part shared by [handleAnalyzeImage] and [handleAskGrok]:
    [if (image) {...} else if (image_url) {...}]. *)
Definition image_parts (image image_url : option string)
  : list ContentPart :=
  match image with
  | Some (String _ _ as b64) => [data_url_part b64]
  | _ =>
      match image_url with
      | Some (String _ _ as url) => [ImageUrlPart url "high"]
      | _ => []
      end
  end.

Definition image_system_prompt : string :=
  "You are an advanced AI with powerful vision capabilities. Analyze the provided image and respond to the user's query in detail.".

Definition image_request (prompt : string) (image image_url : option string)
  : ChatRequest :=
  let userContent := image_parts image image_url ++ [TextPart prompt] in
  chat_request vision_model image_system_prompt userContent.

Definition handleAnalyzeImage
    (prompt : string) (image image_url : option string)
  : M (ToolResult number) :=
  try_catch
    (data ← post (image_request prompt image image_url);
     success_result data)
    (error_result "Error in analyze_image:" "Error analyzing image: ").

Definition grok_system_prompt : string :=
  "You are Grok, a helpful AI assistant with expertise in blockchain technology, especially Solana. You can also analyze images when provided.".

Definition grok_request
    (question : string) (context image image_url : option string)
  : ChatRequest :=
  let userContent :=
    image_parts image image_url ++
    [TextPart match context with
              | Some (String _ _ as c) => c +:+ nl +:+ nl +:+ question
              | _ => question
              end] in
  let model :=
    if truthy image || truthy image_url then vision_model
    else text_model in
  chat_request model grok_system_prompt userContent.

Definition handleAskGrok
    (question : string) (context image image_url : option string)
  : M (ToolResult number) :=
  try_catch
    (data ← post (grok_request question context image image_url);
     success_result data)
    (error_result "Error in ask_grok:" "Error asking Grok: ").

(** ** The dispatcher *)

Definition invalid_params {A} (msg : string)
  : list event * outcome A :=
  ([], Raised {| code := InvalidParams; mcp_message := msg |}).

(** What the protocol layer sees of a handler's promise. *)
Definition settle (m : M (ToolResult number))
  : list event * outcome number :=
  match m with
  | (t, Normal r) => (t, Returned r)
  | (t, Throw e) => (t, Uncaught e)
  end.

(** The handler [setupToolHandlers] registers for [CallToolRequestSchema],
    applied to [request.params.name] and [request.params.arguments]. *)
Definition callTool (name : string) (args : option (gmap string val))
  : list event * outcome number :=
  if decide (name = "analyze_transaction") then
    match args with
    | Some args =>
        match prop args "signature" with
        | VStr signature =>
            settle (handleAnalyzeTransaction signature
                      (as_string (prop args "screenshot"))
                      (as_string (prop args "details")))
        | _ => invalid_params "Missing required signature parameter"
        end
    | None => invalid_params "Missing required signature parameter"
    end
  else if decide (name = "analyze_address") then
    match args with
    | Some args =>
        match prop args "address" with
        | VStr address =>
            settle (handleAnalyzeAddress address
                      (as_string (prop args "screenshot")))
        | _ => invalid_params "Missing required address parameter"
        end
    | None => invalid_params "Missing required address parameter"
    end
  else if decide (name = "analyze_image") then
    match args with
    | Some args =>
        match prop args "prompt" with
        | VStr prompt =>
            settle (handleAnalyzeImage prompt
                      (as_string (prop args "image"))
                      (as_string (prop args "image_url")))
        | _ => invalid_params "Missing required prompt parameter"
        end
    | None => invalid_params "Missing required prompt parameter"
    end
  else if decide (name = "ask_grok") then
    match args with
    | Some args =>
        match prop args "question" with
        | VStr question =>
            settle (handleAskGrok question
                      (as_string (prop args "context"))
                      (as_string (prop args "image"))
                      (as_string (prop args "image_url")))
        | _ => invalid_params "Missing required question parameter"
        end
    | None => invalid_params "Missing required question parameter"
    end
  else
    ([], Raised {| code := MethodNotFound;
                   mcp_message := "Unknown tool: " +:+ name |}).

(** ** Vocabulary of the properties *)

(** A property of a tool that its schema does not require. *)
Definition optional (tool : Tool) (k : string) : Prop :=
  k ∈ properties tool ∧ k ∉ required tool.

(** The arguments pass the validation of [tool]: every required property
    is a string. *)
Definition validated (tool : Tool) (args : gmap string val) : Prop :=
  ∀ f, f ∈ required tool → is_Some (as_string (prop args f)).

(** A call that ended [res] was guarded: it resolved with a tool result;
    when building the request threw, nothing was posted and the result is
    the failure naming that error; otherwise the one request built was
    posted, and the result is the text of the first choice, or the failure
    naming the error of the POST or of reading the response. *)
Definition guarded (prefix : string) (build : M ChatRequest)
    (res : list event * outcome number) : Prop :=
  ∃ r, res.2 = Returned r ∧
    match build.2 with
    | Throw e => posts res.1 = [] ∧ r = failure prefix e
    | Normal req =>
        posts res.1 = [req] ∧
        match axios_post req with
        | Throw e => r = failure prefix e
        | Normal data =>
            match first_choice_content data with
            | Throw e => r = failure prefix e
            | Normal text => r = success text
            end
        end
    end.

(** What a handler makes of an optional argument: a non-empty string, or
    nothing. *)
Definition present (s : option string) : option string :=
  match s with Some (String _ _ as s) => Some s | _ => None end.

(** An argument that is absent or the empty string. *)
Definition blank (v : val) : Prop := v = VUndef ∨ v = VStr "".

(** The line of the prompt for the entry [key] whose value renders as
    [rendered]. *)
Definition detail_line (key rendered : string) : string :=
  "- " +:+ key +:+ ": " +:+ rendered +:+ nl.

(** What [handleAnalyzeTransaction] does once [detailsObj] is set. *)
Definition transaction_after_parse
    (signature : string) (screenshot : option string) (detailsObj : val)
  : M (ToolResult number) :=
  try_catch
    (req ← lift (transaction_payload signature screenshot detailsObj);
     data ← post req;
     success_result data)
    (error_result "Error in analyze_transaction:"
                  "Error analyzing transaction: ").

(** Lines put one after the other. *)
Definition text_of_lines (ls : list string) : string :=
  foldr String.app "" ls.

(** The user parts of a request, and whether a part is an image. *)
Definition user_parts (req : ChatRequest) : list ContentPart :=
  mjoin ((λ m, match content m with
               | Parts ps => if decide (role m = "user") then ps else []
               | Plain _ => []
               end) <$> messages req).

Definition is_image (p : ContentPart) : bool :=
  match p with ImageUrlPart _ _ => true | TextPart _ => false end.

End Server.

(** ** A reference platform

    Node.js on the fragment of JSON whose numbers are integers of magnitude
    at most 2^53 (a [Z], rendered in decimal) and whose strings have code
    units below 256; a text outside the fragment is answered like a
    malformed one.  It instantiates the theorems at concrete calls; no
    theorem depends on it. *)

Module Node.

Definition dquote : string := String (Ascii.ascii_of_nat 34) "".

(** V8's texts. *)
Definition TypeError_message (k : TypeErrorKind) : string :=
  match k with
  | NullishToObject => "Cannot convert undefined or null to object"
  | ObjectToPrimitive => "Cannot convert object to primitive value"
  | ReadPropertyOfNullish is_null p =>
      "Cannot read properties of " +:+
      (if is_null then "null" else "undefined") +:+
      " (reading '" +:+ p +:+ "')"
  end.

(** The text of a [SyntaxError] depends on the input and on the version of
    the engine; one text stands for all of them (the server only logs it). *)
Definition SyntaxError : Error := mkError "Unexpected token in JSON".

Definition is_ws (c : ascii) : bool :=
  match N_of_ascii c with 9 | 10 | 13 | 32 => true | _ => false end%N.

Definition digit (c : ascii) : option N :=
  let n := N_of_ascii c in
  if bool_decide (48 ≤ n ≤ 57)%N then Some (n - 48)%N else None.

Definition hex_digit (c : ascii) : option N :=
  let n := N_of_ascii c in
  if bool_decide (48 ≤ n ≤ 57)%N then Some (n - 48)%N
  else if bool_decide (65 ≤ n ≤ 70)%N then Some (n - 55)%N
  else if bool_decide (97 ≤ n ≤ 102)%N then Some (n - 87)%N
  else None.

Fixpoint skip_ws (s : string) : string :=
  match s with
  | String c r => if is_ws c then skip_ws r else s
  | EmptyString => s
  end.

(** A maximal run of decimal digits, read into [acc]. *)
Fixpoint digits (acc : N) (s : string) : N * string :=
  match s with
  | String c r =>
      match digit c with
      | Some d => digits (10 * acc + d)%N r
      | None => (acc, s)
      end
  | EmptyString => (acc, s)
  end.

(** The index a canonical numeric property key denotes. *)
Definition array_index (k : string) : option N :=
  match k with
  | EmptyString => None
  | String c _ =>
      match digit c, digits 0 k with
      | Some _, (n, EmptyString) =>
          if bool_decide (pretty n = k ∧ (n < 4294967295)%N) then Some n
          else None
      | _, _ => None
      end
  end.

(** Where a new property goes: indices first, ascending, the other keys
    after them in the order of creation. *)
Fixpoint add_prop {A} (props : list (string * A)) (k : string) (v : A)
  : list (string * A) :=
  match props with
  | [] => [(k, v)]
  | (k', v') :: rest =>
      match array_index k, array_index k' with
      | Some i, Some i' =>
          if bool_decide (i < i')%N then (k, v) :: props
          else (k', v') :: add_prop rest k v
      | Some _, None => (k, v) :: props
      | None, _ => (k', v') :: add_prop rest k v
      end
  end.

(** [CreateDataProperty]: a repeated key keeps its place and takes the
    later value. *)
Definition define_prop {A} (props : list (string * A)) (k : string) (v : A)
  : list (string * A) :=
  if bool_decide (k ∈ props.*1) then
    (λ kv, if decide (kv.1 = k) then (k, v) else kv) <$> props
  else add_prop props k v.

(** The characters of a string literal after its opening quote. *)
Fixpoint string_body (s : string) : option (string * string) :=
  match s with
  | EmptyString => None
  | String c r =>
      match N_of_ascii c with
      | 34%N => Some ("", r)
      | 92%N =>
          match r with
          | String e r' =>
              let simple (n : nat) :=
                '(t, rest) ← string_body r';
                Some (String (Ascii.ascii_of_nat n) t, rest) in
              match N_of_ascii e with
              | 34%N => simple 34
              | 92%N => simple 92
              | 47%N => simple 47
              | 98%N => simple 8
              | 102%N => simple 12
              | 110%N => simple 10
              | 114%N => simple 13
              | 116%N => simple 9
              | 117%N =>
                  match r' with
                  | String "0" (String "0" (String h (String l r''))) =>
                      hi ← hex_digit h; lo ← hex_digit l;
                      '(t, rest) ← string_body r'';
                      Some (String (ascii_of_N (16 * hi + lo)) t, rest)
                  | _ => None
                  end
              | _ => None
              end
          | EmptyString => None
          end
      | n =>
          if bool_decide (n < 32)%N then None
          else '(t, rest) ← string_body r; Some (String c t, rest)
      end
  end.

(** An integer literal: an optional minus sign, then a zero or a run of
    digits that does not start with a zero; nothing of a fraction or an
    exponent after it. *)
Definition integer (s : string) : option (Z * string) :=
  let '(neg, s') :=
    match s with
    | String "-" r => (true, r)
    | _ => (false, s)
    end in
  match s' with
  | String c r =>
      match digit c with
      | Some d =>
          let '(n, rest) :=
            if bool_decide (d = 0%N) then (0%N, r) else digits 0 s' in
          let ends :=
            match rest with
            | String c' _ =>
                bool_decide (digit c' = None ∧ c' ≠ "."%char ∧
                             c' ≠ "e"%char ∧ c' ≠ "E"%char)
            | EmptyString => true
            end in
          if ends && bool_decide (n ≤ 9007199254740992)%N
          then Some (if neg then (- Z.of_N n)%Z else Z.of_N n, rest)
          else None
      | None => None
      end
  | EmptyString => None
  end.

(** What follows [word] at the head of [s]. *)
Fixpoint literal (word : string) (s : string) : option string :=
  match word, s with
  | EmptyString, _ => Some s
  | String a word', String b s' =>
      if decide (a = b) then literal word' s' else None
  | String _ _, EmptyString => None
  end.

Fixpoint parse_value (fuel : nat) (s : string) : option (value Z * string) :=
  match fuel with
  | O => None
  | S fuel =>
      match skip_ws s with
      | String "{" r =>
          match skip_ws r with
          | String "}" r' => Some (VObj [], r')
          | r' => parse_members fuel [] r'
          end
      | String "[" r =>
          match skip_ws r with
          | String "]" r' => Some (VArr [], r')
          | r' => parse_elements fuel [] r'
          end
      | String "n" _ as t => r ← literal "null" t; Some (VNull, r)
      | String "t" _ as t => r ← literal "true" t; Some (VBool true, r)
      | String "f" _ as t => r ← literal "false" t; Some (VBool false, r)
      | String c r as t =>
          if bool_decide (N_of_ascii c = 34%N) then
            '(str, rest) ← string_body r; Some (VStr str, rest)
          else '(n, rest) ← integer t; Some (VNum n, rest)
      | EmptyString => None
      end
  end
with parse_members (fuel : nat) (acc : list (string * value Z)) (s : string)
  : option (value Z * string) :=
  match fuel with
  | O => None
  | S fuel =>
      match skip_ws s with
      | String q r =>
          if bool_decide (N_of_ascii q = 34%N) then
            '(k, r) ← string_body r;
            match skip_ws r with
            | String ":" r =>
                '(v, r) ← parse_value fuel r;
                let acc := define_prop acc k v in
                match skip_ws r with
                | String "," r => parse_members fuel acc r
                | String "}" r => Some (VObj acc, r)
                | _ => None
                end
            | _ => None
            end
          else None
      | EmptyString => None
      end
  end
with parse_elements (fuel : nat) (acc : list (value Z)) (s : string)
  : option (value Z * string) :=
  match fuel with
  | O => None
  | S fuel =>
      '(v, r) ← parse_value fuel s;
      let acc := acc ++ [v] in
      match skip_ws r with
      | String "," r => parse_elements fuel acc r
      | String "]" r => Some (VArr acc, r)
      | _ => None
      end
  end.

(** [JSON.parse(text)] *)
Definition JSON_parse (text : string) : completion (value Z) :=
  match parse_value (2 * String.length text + 2) text with
  | Some (v, rest) =>
      match skip_ws rest with
      | EmptyString => Normal v
      | _ => Throw SyntaxError
      end
  | None => Throw SyntaxError
  end.

(** Node.js in front of a given upstream service. *)
Definition platform (upstream : ChatRequest → completion (value Z))
  : Platform :=
  Build_Platform Z pretty JSON_parse TypeError_message upstream.

(** An upstream that answers every request with one choice.
    [{choices: [{message: {content: text}}]}] *)
Definition reply (text : string) : value Z :=
  VObj [("choices", VArr [VObj [("message", VObj [("content", VStr text)])]])].

Definition answering (text : string) : ChatRequest → completion (value Z) :=
  λ _, Normal (reply text).

(** An upstream that fails every request. *)
Definition failing (msg : string) : ChatRequest → completion (value Z) :=
  λ _, Throw (mkError msg).

End Node.

(** ** Sample calls *)

Module Sample.

(** A string literal of JSON. *)
Definition quoted (s : string) : string :=
  Node.dquote +:+ s +:+ Node.dquote.

(** The object with [amount] the string 1.5 and [signature] the string
    x, as in the example of the specification. *)
Definition amount_details : string :=
  "{" +:+ quoted "amount" +:+ ":" +:+ quoted "1.5" +:+ "," +:+
  quoted "signature" +:+ ":" +:+ quoted "x" +:+ "}".

(** The object whose [memo] is an object with the one key [toString], of
    value 1. *)
Definition memo_details : string :=
  "{" +:+ quoted "memo" +:+ ":{" +:+ quoted "toString" +:+ ":1}}".

Definition signature : string := "5VERv8NMvzbJMEkV8xnrLkEaWRtSz9CosKDYjCJjBRnb".

Definition address : string := "7xKXtg2CW87d97TXJSDpbD5jBkheTqA83TZRuJosgAsU".

Definition picture_url : string := "https://example.com/chart.png".

(** A platform whose upstream answers, and one whose upstream fails. *)
Definition up : Platform := Node.platform (Node.answering "This address is inactive.").

Definition down : Platform :=
  Node.platform (Node.failing "Request failed with status code 500").

(** [ask_grok] with an [image] that is the empty string. *)
Definition ask_empty_image : gmap string (value Z) :=
  {[ "question" := VStr "What is a validator?"; "image" := VStr "" ]}.

(** [ask_grok] with an [image_url]. *)
Definition ask_picture : gmap string (value Z) :=
  {[ "question" := VStr "What does this chart show?";
     "image_url" := VStr picture_url ]}.

(** [analyze_image] with an empty [image] and an [image_url]. *)
Definition image_empty_and_url : gmap string (value Z) :=
  {[ "prompt" := VStr "Describe the chart.";
     "image" := VStr "";
     "image_url" := VStr picture_url ]}.

(** [analyze_image] with a base64 [image] and an [image_url]. *)
Definition image_both : gmap string (value Z) :=
  {[ "prompt" := VStr "Describe the chart.";
     "image" := VStr "iVBORw0KGgo=";
     "image_url" := VStr picture_url ]}.

Definition transaction_with (details : string) : gmap string (value Z) :=
  {[ "signature" := VStr signature; "details" := VStr details ]}.

Definition address_only : gmap string (value Z) :=
  {[ "address" := VStr address ]}.

Definition transaction_tool : Tool :=
  {| tool_name := "analyze_transaction";
     properties := ["signature"; "screenshot"; "details"];
     required := ["signature"] |}.

Definition address_tool : Tool :=
  {| tool_name := "analyze_address";
     properties := ["address"; "screenshot"];
     required := ["address"] |}.

End Sample.

(** ** The rest of the server: its start and what surrounds a POST *)

(** The constructor of [GrokAIServer], as far as the key goes:
    [this.apiKey = process.env.XAI_API_KEY || ''; if (!this.apiKey) throw
    new Error(...)].  It yields the key the server keeps. *)
Definition GrokAIServer (XAI_API_KEY : option string) : completion string :=
  let apiKey :=
    match XAI_API_KEY with Some (String _ _ as key) => key | _ => "" end in
  match apiKey with
  | EmptyString =>
      Throw (mkError "XAI_API_KEY environment variable is required")
  | String _ _ => Normal apiKey
  end.

(** The address and the headers of every [axios.post]. *)
Definition endpoint : string := "https://api.x.ai/v1/chat/completions".

Definition headers (apiKey : string) : list (string * string) :=
  [("Content-Type", "application/json");
   ("Authorization", "Bearer " +:+ apiKey)].

(** The first argument of the [console.error] in the [catch] of a handler,
    and the head of the text it returns, by tool name. *)
Definition error_label (name : string) : string := "Error in " +:+ name +:+ ":".

Definition error_prefix (name : string) : string :=
  if decide (name = "analyze_transaction") then "Error analyzing transaction: "
  else if decide (name = "analyze_address") then "Error analyzing address: "
  else if decide (name = "analyze_image") then "Error analyzing image: "
  else "Error asking Grok: ".

(** The system prompt of a tool. *)
Definition system_prompt (name : string) : string :=
  if decide (name = "analyze_transaction") then transaction_system_prompt
  else if decide (name = "analyze_address") then address_system_prompt
  else if decide (name = "analyze_image") then image_system_prompt
  else grok_system_prompt.

(** The shape the four handlers share: build the request, post it, read
    the response, all inside one [try] whose [catch] logs and returns the
    error. *)
Definition handler_of {P : Platform} (label prefix : string)
    (build : M ChatRequest) : M (ToolResult number) :=
  try_catch
    (req ← build; data ← post req; success_result data)
    (error_result label prefix).

(** What a handler of that shape comes to, case by case. *)
Definition handler_ends {P : Platform} (label prefix : string)
    (build : M ChatRequest) : list event * outcome number :=
  match build with
  | (t, Throw e) =>
      (t ++ [ConsoleError label e], Returned (failure prefix e))
  | (t, Normal req) =>
      match axios_post req with
      | Throw e =>
          (t ++ [Post req; ConsoleError label e],
           Returned (failure prefix e))
      | Normal data =>
          match first_choice_content data with
          | Throw e =>
              (t ++ [Post req; ConsoleError label e],
               Returned (failure prefix e))
          | Normal text => (t ++ [Post req], Returned (success text))
          end
      end
  end.

(** The request builder of a validated call, by tool. *)
Definition builder {P : Platform} (name : string) (a : gmap string val)
    (required_value : string) : M ChatRequest :=
  if decide (name = "analyze_transaction") then
    transaction_request required_value
      (as_string (prop a "screenshot")) (as_string (prop a "details"))
  else if decide (name = "analyze_address") then
    pure (address_request required_value (as_string (prop a "screenshot")))
  else if decide (name = "analyze_image") then
    pure (image_request required_value
            (as_string (prop a "image")) (as_string (prop a "image_url")))
  else
    pure (grok_request required_value (as_string (prop a "context"))
            (as_string (prop a "image")) (as_string (prop a "image_url"))).

Definition is_text (p : ContentPart) : bool :=
  match p with TextPart _ => true | ImageUrlPart _ _ => false end.

(** The parts of a user message are well formed: one text part, at most one
    image part, and that one asks for high detail. *)
Definition well_formed_parts (parts : list ContentPart) : Prop :=
  length (filter is_text parts) = 1 ∧
  length (filter is_image parts) ≤ 1 ∧
  ∀ url detail, ImageUrlPart url detail ∈ parts → detail = "high".

(** Some object of [v], at any depth, has a key [toString]. *)
Fixpoint mentions_toString {number} (v : value number) : bool :=
  match v with
  | VArr l =>
      (fix any (l : list (value number)) : bool :=
         match l with
         | [] => false
         | x :: rest => mentions_toString x || any rest
         end) l
  | VObj props =>
      (fix any (props : list (string * value number)) : bool :=
         match props with
         | [] => false
         | (k, x) :: rest =>
             bool_decide (k = "toString") || mentions_toString x || any rest
         end) props
  | _ => false
  end.

(** ** More sample calls *)

Module MoreSample.
Import Sample.

(** An upstream that answers with no choice. *)
Definition choiceless : Platform :=
  Node.platform (λ _, Normal (VObj [("choices", VArr [])])).

(** An upstream whose first choice has a message without content, and a
    second choice that has one. *)
Definition contentless : Platform :=
  Node.platform
    (λ _, Normal (VObj [("id", VStr "cmpl-1");
                        ("choices",
                         VArr [VObj [("message", VObj [("role", VStr "assistant")])];
                               VObj [("message", VObj [("content", VStr "second")])]])])).

Definition screenshot : string := "iVBORw0KGgo=".

Definition address_with_screenshot : gmap string (value Z) :=
  {[ "address" := VStr address; "screenshot" := VStr screenshot ]}.

Definition transaction_with_screenshot : gmap string (value Z) :=
  {[ "signature" := VStr signature; "screenshot" := VStr screenshot ]}.

Definition transaction_only : gmap string (value Z) :=
  {[ "signature" := VStr signature ]}.

(** The request of [transaction_only]. *)
Definition transaction_only_request : ChatRequest :=
  chat_request vision_model transaction_system_prompt
    [TextPart ("Analyze this Solana transaction: " +:+ signature
               +:+ nl +:+ nl)].

(** The request of [transaction_with_screenshot]. *)
Definition transaction_screenshot_request : ChatRequest :=
  chat_request vision_model transaction_system_prompt
    [TextPart ("Analyze this Solana transaction: " +:+ signature
               +:+ nl +:+ nl);
     data_url_part screenshot].

End MoreSample.

(** * Properties *)

Section Properties.
Context {P : Platform}.
Implicit Types (a : gmap string val) (args : option (gmap string val)).

(** ** The dispatcher at each registered name *)

Lemma callTool_transaction a :
  callTool "analyze_transaction" (Some a) =
  match prop a "signature" with
  | VStr signature =>
      settle (handleAnalyzeTransaction signature
                (as_string (prop a "screenshot"))
                (as_string (prop a "details")))
  | _ => invalid_params "Missing required signature parameter"
  end.
Proof. reflexivity. Qed.

Lemma callTool_address a :
  callTool "analyze_address" (Some a) =
  match prop a "address" with
  | VStr address =>
      settle (handleAnalyzeAddress address (as_string (prop a "screenshot")))
  | _ => invalid_params "Missing required address parameter"
  end.
Proof. reflexivity. Qed.

Lemma callTool_image a :
  callTool "analyze_image" (Some a) =
  match prop a "prompt" with
  | VStr prompt =>
      settle (handleAnalyzeImage prompt
                (as_string (prop a "image"))
                (as_string (prop a "image_url")))
  | _ => invalid_params "Missing required prompt parameter"
  end.
Proof. reflexivity. Qed.

Lemma callTool_grok a :
  callTool "ask_grok" (Some a) =
  match prop a "question" with
  | VStr question =>
      settle (handleAskGrok question
                (as_string (prop a "context"))
                (as_string (prop a "image"))
                (as_string (prop a "image_url")))
  | _ => invalid_params "Missing required question parameter"
  end.
Proof. reflexivity. Qed.

Lemma in_tools tool :
  tool ∈ tools →
  tool = {| tool_name := "analyze_transaction";
            properties := ["signature"; "screenshot"; "details"];
            required := ["signature"] |} ∨
  tool = {| tool_name := "analyze_address";
            properties := ["address"; "screenshot"];
            required := ["address"] |} ∨
  tool = {| tool_name := "analyze_image";
            properties := ["image"; "prompt"; "image_url"];
            required := ["prompt"] |} ∨
  tool = {| tool_name := "ask_grok";
            properties := ["question"; "context"; "image"; "image_url"];
            required := ["question"] |}.
Proof.
  unfold tools. rewrite !elem_of_cons, elem_of_nil. tauto.
Qed.

(** C3. A call whose name is none of the four registered names raises
    the method-not-found error [Unknown tool: <name>], and nothing has
    happened before: no request was posted. *)
Theorem unknown_tool_raises name args :
  name ∉ (tool_name <$> tools) →
  callTool name args =
    ([], Raised {| code := MethodNotFound;
                   mcp_message := "Unknown tool: " +:+ name |}).
Proof.
  intros Hname. unfold callTool.
  repeat case_decide; subst; try reflexivity;
    exfalso; apply Hname; compute_done.
Qed.

(** C4. A call to a registered tool whose required field is missing or is
    not a string (or that has no arguments at all) raises the
    invalid-params error [Missing required <field> parameter], and nothing
    has happened before: no payload was built, no request posted. *)
Theorem missing_required_raises tool f args :
  tool ∈ tools → f ∈ required tool →
  (args = None ∨ ∃ a, args = Some a ∧ as_string (prop a f) = None) →
  callTool (tool_name tool) args =
    ([], Raised {| code := InvalidParams;
                   mcp_message :=
                     "Missing required " +:+ f +:+ " parameter" |}).
Proof.
  intros Htool Hf Hargs.
  apply in_tools in Htool as [-> | [-> | [-> | ->]]];
    cbn in Hf; apply list_elem_of_singleton in Hf as ->;
    (destruct Hargs as [-> | (a & -> & Ha)]; [reflexivity |]).
  - rewrite callTool_transaction.
    destruct (prop a "signature"); try reflexivity; discriminate.
  - rewrite callTool_address.
    destruct (prop a "address"); try reflexivity; discriminate.
  - rewrite callTool_image.
    destruct (prop a "prompt"); try reflexivity; discriminate.
  - rewrite callTool_grok.
    destruct (prop a "question"); try reflexivity; discriminate.
Qed.

(** ** Arguments with one property set or removed *)

Lemma prop_insert_eq k (v : val) a : prop (<[k:=v]> a) k = v.
Proof. unfold prop. by rewrite lookup_insert_eq. Qed.

Lemma prop_delete_eq k a : prop (delete k a) k = VUndef.
Proof. unfold prop. by rewrite lookup_delete_eq. Qed.

Lemma prop_insert_ne k k' (v : val) a :
  k ≠ k' → prop (<[k:=v]> a) k' = prop (delete k a) k'.
Proof.
  intros Hne. unfold prop. by rewrite lookup_insert_ne, lookup_delete_ne.
Qed.

(** An optional property set to [v] and the same property removed read
    alike as soon as [v] is no non-empty string. *)
Lemma present_insert k k' (v : val) a :
  present (as_string v) = None →
  present (as_string (prop (<[k:=v]> a) k')) =
  present (as_string (prop (delete k a) k')).
Proof.
  intros Hv. destruct (decide (k = k')) as [<- | Hne].
  - by rewrite prop_insert_eq, prop_delete_eq, Hv.
  - by rewrite prop_insert_ne.
Qed.

(** ** The handlers only look at the non-empty optional arguments *)

Lemma transaction_request_present signature screenshot details :
  transaction_request signature screenshot details =
  transaction_request signature (present screenshot) (present details).
Proof. by destruct screenshot as [[|]|], details as [[|]|]. Qed.

Lemma handleAnalyzeTransaction_present signature screenshot details :
  handleAnalyzeTransaction signature screenshot details =
  handleAnalyzeTransaction signature (present screenshot) (present details).
Proof.
  unfold handleAnalyzeTransaction.
  by rewrite transaction_request_present.
Qed.

Lemma address_request_present address screenshot :
  address_request address screenshot =
  address_request address (present screenshot).
Proof. by destruct screenshot as [[|]|]. Qed.

Lemma handleAnalyzeAddress_present address screenshot :
  handleAnalyzeAddress address screenshot =
  handleAnalyzeAddress address (present screenshot).
Proof. unfold handleAnalyzeAddress. by rewrite address_request_present. Qed.

Lemma image_request_present prompt image image_url :
  image_request prompt image image_url =
  image_request prompt (present image) (present image_url).
Proof. by destruct image as [[|]|], image_url as [[|]|]. Qed.

Lemma handleAnalyzeImage_present prompt image image_url :
  handleAnalyzeImage prompt image image_url =
  handleAnalyzeImage prompt (present image) (present image_url).
Proof. unfold handleAnalyzeImage. by rewrite image_request_present. Qed.

Lemma grok_request_present question context image image_url :
  grok_request question context image image_url =
  grok_request question (present context) (present image)
    (present image_url).
Proof.
  by destruct context as [[|]|], image as [[|]|], image_url as [[|]|].
Qed.

Lemma handleAskGrok_present question context image image_url :
  handleAskGrok question context image image_url =
  handleAskGrok question (present context) (present image)
    (present image_url).
Proof. unfold handleAskGrok. by rewrite grok_request_present. Qed.

(** The dispatcher does not tell an optional property that holds no
    non-empty string from one that is not there. *)
Lemma callTool_insert_delete tool k (v : val) a :
  tool ∈ tools → optional tool k → present (as_string v) = None →
  callTool (tool_name tool) (Some (<[k:=v]> a)) =
  callTool (tool_name tool) (Some (delete k a)).
Proof.
  intros Htool [Hk Hreq] Hv.
  apply in_tools in Htool as [-> | [-> | [-> | ->]]]; cbn in Hk, Hreq |- *.
  - rewrite !callTool_transaction.
    rewrite (prop_insert_ne k "signature")
      by (intros ->; apply Hreq; constructor).
    destruct (prop (delete k a) "signature"); try reflexivity.
    rewrite handleAnalyzeTransaction_present, !present_insert by done.
    by rewrite <- handleAnalyzeTransaction_present.
  - rewrite !callTool_address.
    rewrite (prop_insert_ne k "address")
      by (intros ->; apply Hreq; constructor).
    destruct (prop (delete k a) "address"); try reflexivity.
    rewrite handleAnalyzeAddress_present, !present_insert by done.
    by rewrite <- handleAnalyzeAddress_present.
  - rewrite !callTool_image.
    rewrite (prop_insert_ne k "prompt")
      by (intros ->; apply Hreq; constructor).
    destruct (prop (delete k a) "prompt"); try reflexivity.
    rewrite handleAnalyzeImage_present, !present_insert by done.
    by rewrite <- handleAnalyzeImage_present.
  - rewrite !callTool_grok.
    rewrite (prop_insert_ne k "question")
      by (intros ->; apply Hreq; constructor).
    destruct (prop (delete k a) "question"); try reflexivity.
    rewrite handleAskGrok_present, !present_insert by done.
    by rewrite <- handleAskGrok_present.
Qed.

(** ** Every handler catches what its body throws *)

Lemma posts_app (t t' : list event) : posts (t ++ t') = posts t ++ posts t'.
Proof. unfold posts. apply omap_app. Qed.

Lemma posts_post req (t : list event) : posts (Post req :: t) = req :: posts t.
Proof. reflexivity. Qed.

Lemma posts_log label e (t : list event) :
  posts (ConsoleError label e :: t) = posts t.
Proof. reflexivity. Qed.

#[local] Arguments posts : simpl never.

Lemma parse_details_eq details :
  parse_details details =
  match present details with
  | None => ([], Normal (VObj []))
  | Some d =>
      match JSON_parse d with
      | Normal v => ([], Normal v)
      | Throw e =>
          ([ConsoleError "Error parsing details:" e], Normal (VObj []))
      end
  end.
Proof.
  by destruct details as [[|c d]|].
Qed.

Lemma parse_details_normal details :
  ∃ t v, parse_details details = (t, Normal v) ∧ posts t = [].
Proof.
  rewrite parse_details_eq.
  destruct (present details) as [d|]; [destruct (JSON_parse d)|]; eauto.
Qed.

(** The request builder posts nothing and ends as its payload does. *)
Lemma transaction_request_eq signature screenshot details :
  ∃ t v, parse_details details = (t, Normal v) ∧ posts t = [] ∧
    transaction_request signature screenshot details =
      (t, transaction_payload signature screenshot v).
Proof.
  destruct (parse_details_normal details) as (t & v & Hp & Ht).
  exists t, v. repeat split; try done.
  unfold transaction_request. rewrite Hp. cbn.
  by rewrite app_nil_r.
Qed.

Lemma guarded_handler prefix label (build : M ChatRequest) :
  posts build.1 = [] →
  guarded prefix build
    (settle (try_catch (req ← build; data ← post req; success_result data)
               (error_result label prefix))).
Proof.
  destruct build as [t [req|e]]; cbn; intros Ht; unfold guarded; cbn.
  - destruct (axios_post req) as [data|e]; cbn.
    + destruct (first_choice_content data) as [text|e]; cbn;
        eexists; (split; [reflexivity|]);
        rewrite ?posts_app, ?posts_post, ?posts_log, Ht; cbn; auto.
    + eexists; (split; [reflexivity|]);
        rewrite ?posts_app, ?posts_post, ?posts_log, Ht; cbn; auto.
  - eexists; (split; [reflexivity|]);
      rewrite ?posts_app, ?posts_post, ?posts_log, Ht; cbn; auto.
Qed.

Lemma guarded_handler_pure prefix label (req : ChatRequest) :
  guarded prefix (pure req)
    (settle (try_catch (data ← post req; success_result data)
               (error_result label prefix))).
Proof.
  unfold guarded; cbn.
  destruct (axios_post req) as [data|e]; cbn;
    [destruct (first_choice_content data) as [text|e]; cbn|];
    eexists; (split; [reflexivity|]); auto.
Qed.

Lemma as_string_is_Some (v : val) :
  is_Some (as_string v) → ∃ s, v = VStr s.
Proof. destruct v; intros [x Hx]; try discriminate. eauto. Qed.

Lemma guarded_transaction a signature :
  prop a "signature" = VStr signature →
  guarded "Error analyzing transaction: "
    (transaction_request signature (as_string (prop a "screenshot"))
       (as_string (prop a "details")))
    (callTool "analyze_transaction" (Some a)).
Proof.
  intros H. rewrite callTool_transaction, H.
  apply guarded_handler.
  destruct (transaction_request_eq signature
              (as_string (prop a "screenshot"))
              (as_string (prop a "details"))) as (t & v & _ & Ht & ->).
  exact Ht.
Qed.

Lemma guarded_address a address :
  prop a "address" = VStr address →
  guarded "Error analyzing address: "
    (pure (address_request address (as_string (prop a "screenshot"))))
    (callTool "analyze_address" (Some a)).
Proof.
  intros H. rewrite callTool_address, H. apply guarded_handler_pure.
Qed.

Lemma guarded_image a prompt :
  prop a "prompt" = VStr prompt →
  guarded "Error analyzing image: "
    (pure (image_request prompt (as_string (prop a "image"))
             (as_string (prop a "image_url"))))
    (callTool "analyze_image" (Some a)).
Proof.
  intros H. rewrite callTool_image, H. apply guarded_handler_pure.
Qed.

Lemma guarded_grok a question :
  prop a "question" = VStr question →
  guarded "Error asking Grok: "
    (pure (grok_request question (as_string (prop a "context"))
             (as_string (prop a "image"))
             (as_string (prop a "image_url"))))
    (callTool "ask_grok" (Some a)).
Proof.
  intros H. rewrite callTool_grok, H. apply guarded_handler_pure.
Qed.

(** A validated call resolves with a tool result. *)
Lemma validated_returns tool a :
  tool ∈ tools → validated tool a →
  ∃ r, (callTool (tool_name tool) (Some a)).2 = Returned r.
Proof.
  intros Htool Hval.
  apply in_tools in Htool as [-> | [-> | [-> | ->]]];
    (destruct (as_string_is_Some (prop a _) (Hval _ ltac:(by left)))
       as [s Hs]).
  - destruct (guarded_transaction a s Hs) as (r & Hr & _); eauto.
  - destruct (guarded_address a s Hs) as (r & Hr & _); eauto.
  - destruct (guarded_image a s Hs) as (r & Hr & _); eauto.
  - destruct (guarded_grok a s Hs) as (r & Hr & _); eauto.
Qed.

(** C2. In a call that passed validation, a failure while the payload is
    built, in the POST, or while the response is read is not raised to
    the protocol layer: the call resolves with the result
    [{content: [{type: 'text', text: prefix + error.message}],
    isError: true}], the prefix being the one of the operation. *)
Theorem failures_are_returned :
  (∀ a signature, prop a "signature" = VStr signature →
     guarded "Error analyzing transaction: "
       (transaction_request signature (as_string (prop a "screenshot"))
          (as_string (prop a "details")))
       (callTool "analyze_transaction" (Some a))) ∧
  (∀ a address, prop a "address" = VStr address →
     guarded "Error analyzing address: "
       (pure (address_request address (as_string (prop a "screenshot"))))
       (callTool "analyze_address" (Some a))) ∧
  (∀ a prompt, prop a "prompt" = VStr prompt →
     guarded "Error analyzing image: "
       (pure (image_request prompt (as_string (prop a "image"))
                (as_string (prop a "image_url"))))
       (callTool "analyze_image" (Some a))) ∧
  (∀ a question, prop a "question" = VStr question →
     guarded "Error asking Grok: "
       (pure (grok_request question (as_string (prop a "context"))
                (as_string (prop a "image"))
                (as_string (prop a "image_url"))))
       (callTool "ask_grok" (Some a))).
Proof.
  repeat split.
  - apply guarded_transaction.
  - apply guarded_address.
  - apply guarded_image.
  - apply guarded_grok.
Qed.

(** C5. An optional field that is present with a value that is no string
    is read as if it were not there: the call with the field and the call
    without it do the same, event for event (so they post the same
    request), and end the same; and the field does not get a call
    rejected that passes validation. *)
Theorem non_string_optional_as_omitted tool k (v : val) a :
  tool ∈ tools → optional tool k → as_string v = None →
  callTool (tool_name tool) (Some (<[k:=v]> a)) =
    callTool (tool_name tool) (Some (delete k a)) ∧
  (validated tool (<[k:=v]> a) →
   ∃ r, (callTool (tool_name tool) (Some (<[k:=v]> a))).2 = Returned r).
Proof.
  intros Htool Hk Hv. split.
  - apply callTool_insert_delete; try done. by rewrite Hv.
  - by apply validated_returns.
Qed.

(** ** The requests a call posts *)

Lemma blank_present (v : val) : blank v → present (as_string v) = None.
Proof. by intros [-> | ->]. Qed.

Lemma user_parts_chat_request model systemPrompt userContent :
  user_parts (chat_request model systemPrompt userContent) = userContent.
Proof. unfold user_parts. cbn. apply app_nil_r. Qed.

Lemma posts_transaction a signature :
  prop a "signature" = VStr signature →
  posts (callTool "analyze_transaction" (Some a)).1 =
  match (transaction_request signature (as_string (prop a "screenshot"))
           (as_string (prop a "details"))).2 with
  | Normal req => [req]
  | Throw _ => []
  end.
Proof.
  intros H. destruct (guarded_transaction a signature H) as (r & _ & Hg).
  destruct (_.2) in Hg |- *; tauto.
Qed.

Lemma posts_address a address :
  prop a "address" = VStr address →
  posts (callTool "analyze_address" (Some a)).1 =
  [address_request address (as_string (prop a "screenshot"))].
Proof.
  intros H. by destruct (guarded_address a address H) as (r & _ & Hg & _).
Qed.

Lemma posts_image a prompt :
  prop a "prompt" = VStr prompt →
  posts (callTool "analyze_image" (Some a)).1 =
  [image_request prompt (as_string (prop a "image"))
     (as_string (prop a "image_url"))].
Proof.
  intros H. by destruct (guarded_image a prompt H) as (r & _ & Hg & _).
Qed.

Lemma posts_grok a question :
  prop a "question" = VStr question →
  posts (callTool "ask_grok" (Some a)).1 =
  [grok_request question (as_string (prop a "context"))
     (as_string (prop a "image")) (as_string (prop a "image_url"))].
Proof.
  intros H. by destruct (guarded_grok a question H) as (r & _ & Hg & _).
Qed.

Lemma transaction_payload_inv signature screenshot (v : val) req :
  transaction_payload signature screenshot v = Normal req →
  ∃ text, transaction_prompt_text signature v = Normal text ∧
    req = chat_request vision_model transaction_system_prompt
            ([TextPart text] ++ screenshot_parts screenshot).
Proof.
  unfold transaction_payload.
  destruct (transaction_prompt_text signature v) as [text|e]; cbn;
    intros H; simplify_eq. eauto.
Qed.

Lemma transaction_request_inv signature screenshot details req :
  (transaction_request signature screenshot details).2 = Normal req →
  ∃ v text, (parse_details details).2 = Normal v ∧
    transaction_prompt_text signature v = Normal text ∧
    req = chat_request vision_model transaction_system_prompt
            ([TextPart text] ++ screenshot_parts screenshot).
Proof.
  destruct (transaction_request_eq signature screenshot details)
    as (t & v & Hp & _ & ->). cbn. intros H.
  apply transaction_payload_inv in H as (text & ? & ?).
  exists v, text. by rewrite Hp.
Qed.

(** What [callTool] posts under one of the three names that do not
    choose their model. *)
Lemma posts_vision name args req :
  name ∈ ["analyze_transaction"; "analyze_address"; "analyze_image"] →
  req ∈ posts (callTool name args).1 → model req = vision_model.
Proof.
  rewrite !elem_of_cons, elem_of_nil.
  intros [-> | [-> | [-> | []]]];
    (destruct args as [a|]; [|by intros ?%elem_of_nil]).
  - destruct (prop a "signature") eqn:Hf;
      try (rewrite callTool_transaction, Hf; by intros ?%elem_of_nil).
    rewrite (posts_transaction a s Hf).
    destruct (_.2) as [req'|] eqn:Hreq; [|by intros ?%elem_of_nil].
    intros ->%list_elem_of_singleton.
    by apply transaction_request_inv in Hreq as (v & text & _ & _ & ->).
  - destruct (prop a "address") eqn:Hf;
      try (rewrite callTool_address, Hf; by intros ?%elem_of_nil).
    rewrite (posts_address a s Hf). by intros ->%list_elem_of_singleton.
  - destruct (prop a "prompt") eqn:Hf;
      try (rewrite callTool_image, Hf; by intros ?%elem_of_nil).
    rewrite (posts_image a s Hf). by intros ->%list_elem_of_singleton.
Qed.

(** C1, as the code has it.  A validated [ask_grok] call posts one
    request; its model is the vision model when [image] or [image_url]
    is a non-empty string and the text-only model otherwise, so in
    particular when neither is a string.  Whatever the three other tools
    post goes to the vision model. *)
Theorem model_selection :
  (∀ a question, prop a "question" = VStr question →
     model <$> posts (callTool "ask_grok" (Some a)).1 =
     [if truthy (as_string (prop a "image")) ||
         truthy (as_string (prop a "image_url"))
      then vision_model else text_model]) ∧
  (∀ a question, prop a "question" = VStr question →
     as_string (prop a "image") = None →
     as_string (prop a "image_url") = None →
     model <$> posts (callTool "ask_grok" (Some a)).1 = [text_model]) ∧
  (∀ name args req,
     name ∈ ["analyze_transaction"; "analyze_address"; "analyze_image"] →
     req ∈ posts (callTool name args).1 → model req = vision_model).
Proof.
  split; [|split].
  - intros a question H. by rewrite (posts_grok a question H).
  - intros a question H Hi Hu.
    by rewrite (posts_grok a question H), Hi, Hu.
  - apply posts_vision.
Qed.

(** C8, as the code has it.  When [image] is a non-empty string, the user
    message of [analyze_image] and of [ask_grok] is the image part
    [{url: "data:image/jpeg;base64," + image, detail: "high"}] followed
    by the text part and nothing else, whatever [image_url] is. *)
Theorem base64_image_preferred :
  (∀ a prompt image,
     prop a "prompt" = VStr prompt →
     prop a "image" = VStr image → image ≠ "" →
     ∃ req, posts (callTool "analyze_image" (Some a)).1 = [req] ∧
       user_parts req = [data_url_part image; TextPart prompt]) ∧
  (∀ a question image,
     prop a "question" = VStr question →
     prop a "image" = VStr image → image ≠ "" →
     ∃ req, posts (callTool "ask_grok" (Some a)).1 = [req] ∧
       user_parts req =
         [data_url_part image;
          TextPart match present (as_string (prop a "context")) with
                   | Some c => c +:+ nl +:+ nl +:+ question
                   | None => question
                   end]).
Proof.
  split.
  - intros a prompt image Hp Hi Hne. eexists. split.
    + by apply posts_image.
    + rewrite Hi. unfold image_request.
      rewrite user_parts_chat_request. by destruct image.
  - intros a question image Hq Hi Hne. eexists. split.
    + by apply posts_grok.
    + rewrite Hi. unfold grok_request.
      rewrite user_parts_chat_request.
      destruct image; [done|].
      by destruct (as_string (prop a "context")) as [[|]|].
Qed.

Lemma screenshot_parts_blank screenshot :
  present screenshot = None → screenshot_parts screenshot = [].
Proof. by destruct screenshot as [[|]|]. Qed.

Lemma image_parts_blank image image_url :
  present image = None → present image_url = None →
  image_parts image image_url = [].
Proof. by destruct image as [[|]|], image_url as [[|]|]. Qed.

(** C9. An optional field that is the empty string is read as if it were
    not there: the call with it and the call without it do the same and
    end the same.  With the screenshot, or with both [image] and
    [image_url], absent or empty, a request has no image part; with
    [details] or [context] absent or empty, the text is the plain prompt;
    and [ask_grok] with [image] and [image_url] absent or empty posts to
    the text-only model. *)
Theorem empty_optional_as_absent :
  (∀ tool k a, tool ∈ tools → optional tool k →
     callTool (tool_name tool) (Some (<[k:=VStr ""]> a)) =
     callTool (tool_name tool) (Some (delete k a))) ∧
  (∀ tool a req, tool ∈ tools →
     (∀ k, optional tool k → k ∈ ["screenshot"; "image"; "image_url"] →
           blank (prop a k)) →
     req ∈ posts (callTool (tool_name tool) (Some a)).1 →
     filter is_image (user_parts req) = []) ∧
  (∀ a signature req, prop a "signature" = VStr signature →
     blank (prop a "details") →
     req ∈ posts (callTool "analyze_transaction" (Some a)).1 →
     ∃ parts, user_parts req =
       TextPart ("Analyze this Solana transaction: " +:+ signature
                 +:+ nl +:+ nl) :: parts) ∧
  (∀ a question req, prop a "question" = VStr question →
     blank (prop a "context") →
     req ∈ posts (callTool "ask_grok" (Some a)).1 →
     ∃ parts, user_parts req = parts ++ [TextPart question]) ∧
  (∀ a question, prop a "question" = VStr question →
     blank (prop a "image") → blank (prop a "image_url") →
     model <$> posts (callTool "ask_grok" (Some a)).1 = [text_model]).
Proof.
  split; [|split; [|split; [|split]]].
  - intros tool k a Htool Hk. by apply callTool_insert_delete.
  - intros tool a req Htool Hblank.
    assert (∀ k, optional tool k →
              k ∈ ["screenshot"; "image"; "image_url"] →
              present (as_string (prop a k)) = None) as Hp
      by (intros; by apply blank_present, Hblank).
    clear Hblank.
    apply in_tools in Htool as [-> | [-> | [-> | ->]]]; cbn.
    + destruct (prop a "signature") eqn:Hf;
        try (rewrite callTool_transaction, Hf; by intros ?%elem_of_nil).
      rewrite (posts_transaction a s Hf).
      destruct (_.2) as [req'|] eqn:Hreq; [|by intros ?%elem_of_nil].
      intros ->%list_elem_of_singleton.
      apply transaction_request_inv in Hreq as (v & text & _ & _ & ->).
      rewrite user_parts_chat_request, screenshot_parts_blank; [done|].
      apply Hp; [split|]; compute_done.
    + destruct (prop a "address") eqn:Hf;
        try (rewrite callTool_address, Hf; by intros ?%elem_of_nil).
      rewrite (posts_address a s Hf). intros ->%list_elem_of_singleton.
      unfold address_request.
      rewrite user_parts_chat_request, screenshot_parts_blank; [done|].
      apply Hp; [split|]; compute_done.
    + destruct (prop a "prompt") eqn:Hf;
        try (rewrite callTool_image, Hf; by intros ?%elem_of_nil).
      rewrite (posts_image a s Hf). intros ->%list_elem_of_singleton.
      unfold image_request.
      rewrite user_parts_chat_request, image_parts_blank; [done| |];
        (apply Hp; [split|]; compute_done).
    + destruct (prop a "question") eqn:Hf;
        try (rewrite callTool_grok, Hf; by intros ?%elem_of_nil).
      rewrite (posts_grok a s Hf). intros ->%list_elem_of_singleton.
      unfold grok_request.
      rewrite user_parts_chat_request, image_parts_blank; [done| |];
        (apply Hp; [split|]; compute_done).
  - intros a signature req Hf Hd%blank_present.
    rewrite (posts_transaction a signature Hf).
    rewrite transaction_request_present, Hd.
    intros ->%list_elem_of_singleton.
    eexists. apply user_parts_chat_request.
  - intros a question req Hf Hc%blank_present.
    rewrite (posts_grok a question Hf), grok_request_present, Hc.
    intros ->%list_elem_of_singleton.
    eexists. apply user_parts_chat_request.
  - intros a question Hf Hi%blank_present Hu%blank_present.
    by rewrite (posts_grok a question Hf), grok_request_present, Hi, Hu.
Qed.

(** ** The details of a transaction *)

Lemma string_app_assoc (s1 s2 s3 : string) :
  (s1 +:+ s2) +:+ s3 = s1 +:+ s2 +:+ s3.
Proof.
  induction s1 as [|c s1 IH]; [done|].
  exact (f_equal (String c) IH).
Qed.

Lemma try_catch_bind_normal {A B} t (x : A) (k : A → M B) h :
  try_catch ((t, Normal x) ≫= k) h =
  (t ++ (try_catch (k x) h).1, (try_catch (k x) h).2).
Proof.
  unfold mbind, M_bind, bind, try_catch.
  destruct (k x) as [t' [b|e]]; cbn; [done|].
  destruct (h e); cbn. by rewrite app_assoc.
Qed.

Lemma try_catch_bind_throw {A B} t e (k : A → M B) h :
  try_catch ((t, Throw e) ≫= k) h = (t ++ (h e).1, (h e).2).
Proof. unfold mbind, M_bind, bind, try_catch. by destruct (h e). Qed.

Lemma bind_normal {A B} t (x : A) (k : A → M B) :
  (t, Normal x) ≫= k = (t ++ (k x).1, (k x).2).
Proof. unfold mbind, M_bind, bind. by destruct (k x). Qed.

(** The handler is the parse of the details, then the rest. *)
Lemma handleAnalyzeTransaction_eq signature screenshot details :
  ∃ log v, parse_details details = (log, Normal v) ∧ posts log = [] ∧
    handleAnalyzeTransaction signature screenshot details =
    (log ++ (transaction_after_parse signature screenshot v).1,
     (transaction_after_parse signature screenshot v).2).
Proof.
  destruct (parse_details_normal details) as (log & v & Hp & Hlog).
  exists log, v. repeat split; try done.
  unfold handleAnalyzeTransaction, transaction_after_parse,
    transaction_request.
  rewrite Hp, bind_normal. unfold lift. cbn [fst snd].
  rewrite app_nil_r.
  destruct (transaction_payload signature screenshot v) as [req|e].
  - rewrite !try_catch_bind_normal. by cbn [fst snd app].
  - by rewrite !try_catch_bind_throw.
Qed.

Lemma transaction_after_parse_normal signature screenshot (v : val) req :
  transaction_payload signature screenshot v = Normal req →
  posts (transaction_after_parse signature screenshot v).1 = [req].
Proof.
  intros H. unfold transaction_after_parse. rewrite H.
  pose proof (guarded_handler "Error analyzing transaction: "
                "Error in analyze_transaction:" ([], Normal req) eq_refl)
    as (r & _ & Hposts & _).
  unfold lift. revert Hposts. cbn [fst snd].
  by destruct (try_catch _ _) as [t' []].
Qed.

Lemma transaction_after_parse_throw signature screenshot (v : val) e :
  transaction_payload signature screenshot v = Throw e →
  transaction_after_parse signature screenshot v =
    ([ConsoleError "Error in analyze_transaction:" e],
     Normal (failure "Error analyzing transaction: " e)).
Proof. intros H. unfold transaction_after_parse. by rewrite H. Qed.

Lemma settle_fst (m : M (ToolResult number)) : (settle m).1 = m.1.
Proof. by destruct m as [t []]. Qed.

Lemma settle_snd (m m' : M (ToolResult number)) :
  m.2 = m'.2 → (settle m).2 = (settle m').2.
Proof. destruct m as [t []], m' as [t' []]; cbn; congruence. Qed.

Lemma prop_delete_ne k k' a : k ≠ k' → prop (delete k a) k' = prop a k'.
Proof. intros Hne. unfold prop. by rewrite lookup_delete_ne. Qed.

(** A call with string [details], in terms of what the details parse to. *)
Lemma callTool_transaction_details a signature details :
  prop a "signature" = VStr signature →
  as_string (prop a "details") = details →
  ∃ log v, parse_details details = (log, Normal v) ∧ posts log = [] ∧
    let rest := transaction_after_parse signature
                  (as_string (prop a "screenshot")) v in
    (callTool "analyze_transaction" (Some a)).1 = log ++ rest.1 ∧
    (callTool "analyze_transaction" (Some a)).2 =
      (settle rest).2.
Proof.
  intros Hs Hd. rewrite callTool_transaction, Hs, Hd.
  destruct (handleAnalyzeTransaction_eq signature
              (as_string (prop a "screenshot")) details)
    as (log & v & Hp & Hlog & ->).
  exists log, v. repeat split; try done.
  - by rewrite settle_fst.
  - by apply settle_snd.
Qed.

(** C6. When [details] is a string that [JSON.parse] rejects, the call
    does not fail for it: the error is caught, the empty object stands
    for the details, the request posted is the one of a call without
    [details], and the call ends as that call does. *)
Theorem unparseable_details_as_omitted a signature d e :
  prop a "signature" = VStr signature →
  prop a "details" = VStr d →
  JSON_parse d = Throw e →
  (parse_details (Some d)).2 = Normal (VObj []) ∧
  posts (callTool "analyze_transaction" (Some a)).1 =
    [chat_request vision_model transaction_system_prompt
       ([TextPart ("Analyze this Solana transaction: " +:+ signature
                   +:+ nl +:+ nl)] ++
        screenshot_parts (as_string (prop a "screenshot")))] ∧
  posts (callTool "analyze_transaction" (Some a)).1 =
    posts (callTool "analyze_transaction" (Some (delete "details" a))).1 ∧
  (callTool "analyze_transaction" (Some a)).2 =
    (callTool "analyze_transaction" (Some (delete "details" a))).2.
Proof.
  intros Hs Hd He.
  assert ((parse_details (Some d)).2 = Normal (VObj [])) as Hparse.
  { rewrite parse_details_eq. destruct d; [done|]. cbn. by rewrite He. }
  destruct (callTool_transaction_details a signature (Some d) Hs)
    as (log & v & Hp & Hlog & Ht & Hr); [by rewrite Hd|].
  split; [done|].
  rewrite Hp in Hparse. cbn in Hparse. simplify_eq.
  destruct (callTool_transaction_details (delete "details" a) signature
              None) as (log' & v' & Hp' & Hlog' & Ht' & Hr').
  { by rewrite prop_delete_ne. }
  { by rewrite prop_delete_eq. }
  injection Hp' as <- <-.
  rewrite (prop_delete_ne "details" "screenshot") in Ht', Hr' by done.
  cbn zeta in *.
  rewrite Ht, Ht', Hr, Hr', !posts_app, Hlog.
  repeat split; try done.
  by apply transaction_after_parse_normal.
Qed.

Lemma callTool_pair name args :
  callTool name args = ((callTool name args).1, (callTool name args).2).
Proof. by destruct (callTool name args). Qed.

(** C10. When [details] is valid JSON for [null], the call is not the
    call without [details]: [Object.keys(null)] throws while the prompt is
    built, so nothing is posted, and the call resolves with the error
    result whose text starts with [Error analyzing transaction: ]; the
    call without [details] posts a request. *)
Theorem null_details_fail a signature d :
  prop a "signature" = VStr signature →
  prop a "details" = VStr d → d ≠ "" →
  JSON_parse d = Normal VNull →
  callTool "analyze_transaction" (Some a) =
    ([ConsoleError "Error in analyze_transaction:"
        (TypeError NullishToObject)],
     Returned (failure "Error analyzing transaction: "
                 (TypeError NullishToObject))) ∧
  posts (callTool "analyze_transaction" (Some a)).1 = [] ∧
  (∃ req,
     posts (callTool "analyze_transaction" (Some (delete "details" a))).1
     = [req]).
Proof.
  intros Hs Hd Hne Hnull.
  destruct (callTool_transaction_details a signature (Some d) Hs)
    as (log & v & Hp & Hlog & Ht & Hr); [by rewrite Hd|].
  rewrite parse_details_eq in Hp.
  destruct d as [|c d]; [done|]. cbn in Hp. rewrite Hnull in Hp.
  injection Hp as <- <-.
  rewrite (transaction_after_parse_throw signature _ VNull
             (TypeError NullishToObject) eq_refl) in Ht, Hr.
  cbn in Ht, Hr.
  split; [|split].
  - by rewrite callTool_pair, Ht, Hr.
  - by rewrite Ht.
  - destruct (callTool_transaction_details (delete "details" a) signature
                None) as (log' & v' & Hp' & Hlog' & Ht' & _).
    { by rewrite prop_delete_ne. }
    { by rewrite prop_delete_eq. }
    injection Hp' as <- <-. cbn zeta in Ht'.
    eexists. rewrite Ht'. cbn [app].
    by apply transaction_after_parse_normal.
Qed.

Lemma append_details_rendered (entries : list (string * val)) acc rendered :
  Forall2 (λ kv s, ToString kv.2 = Normal s)
    (filter (λ kv, kv.1 ≠ "signature") entries) rendered →
  append_details entries acc =
  Normal (acc +:+
          text_of_lines
            (zip_with detail_line
               (filter (λ kv, kv.1 ≠ "signature") entries).*1 rendered)).
Proof.
  revert acc rendered.
  induction entries as [|[key value] entries IH]; intros acc rendered.
  - intros ->%Forall2_nil_inv_l. cbn.
    f_equal. induction acc as [|c acc IHacc]; [done|].
    exact (f_equal (String c) IHacc).
  - cbn [append_details]. case_decide as Hkey.
    + rewrite filter_cons_False by (cbn; tauto). apply IH.
    + rewrite filter_cons_True by done.
      intros (s & rest & Hs & Hrest & ->)%Forall2_cons_inv_l.
      cbn in Hs. rewrite Hs, (IH _ rest Hrest).
      f_equal. cbn [fmap list_fmap zip_with text_of_lines foldr fst].
      unfold detail_line at 2. by rewrite !string_app_assoc.
Qed.

Lemma append_details_throws (entries : list (string * val)) acc :
  Exists (λ kv, ∃ e, ToString kv.2 = Throw e)
    (filter (λ kv, kv.1 ≠ "signature") entries) →
  ∃ e, append_details entries acc = Throw e.
Proof.
  revert acc. induction entries as [|[key value] entries IH]; intros acc.
  - by intros ?%Exists_nil.
  - cbn [append_details]. case_decide as Hkey.
    + rewrite filter_cons_False by (cbn; tauto). apply IH.
    + rewrite filter_cons_True by done.
      destruct (ToString value) as [s|e] eqn:Hs; [|eauto].
      intros [(e & He) | Hrest]%Exists_cons; [|by apply IH].
      cbn in He. congruence.
Qed.

Lemma transaction_prompt_text_object signature
    (props : list (string * val)) :
  props ≠ [] →
  transaction_prompt_text signature (VObj props) =
  append_details props
    (("Analyze this Solana transaction: " +:+ signature +:+ nl +:+ nl)
     +:+ "Additional details:" +:+ nl).
Proof. by destruct props. Qed.

(** C7, as the code has it.  When [details] parses to an object with at
    least one key, take its entries in the order of [Object.entries],
    those under the key [signature] left out.  If the value of each
    renders to a string, the text part is the prompt, the line
    [Additional details:], and one line [- key: value] per such entry, in
    that order.  If the value of one does not render (an object with a
    [toString] property of its own), nothing is posted and the call
    resolves with the error result. *)
Theorem details_lines a signature d props :
  prop a "signature" = VStr signature →
  prop a "details" = VStr d → d ≠ "" →
  JSON_parse d = Normal (VObj props) → props ≠ [] →
  let kept := filter (λ kv, kv.1 ≠ "signature") props in
  (∀ rendered,
     Forall2 (λ kv s, ToString kv.2 = Normal s) kept rendered →
     ∃ req, posts (callTool "analyze_transaction" (Some a)).1 = [req] ∧
       user_parts req =
         TextPart
           ((("Analyze this Solana transaction: " +:+ signature
              +:+ nl +:+ nl) +:+ "Additional details:" +:+ nl) +:+
            text_of_lines (zip_with detail_line kept.*1 rendered))
         :: screenshot_parts (as_string (prop a "screenshot"))) ∧
  (Exists (λ kv, ∃ e, ToString kv.2 = Throw e) kept →
   posts (callTool "analyze_transaction" (Some a)).1 = [] ∧
   ∃ e, (callTool "analyze_transaction" (Some a)).2 =
          Returned (failure "Error analyzing transaction: " e)).
Proof.
  intros Hs Hd Hne Hobj Hprops kept.
  destruct (callTool_transaction_details a signature (Some d) Hs)
    as (log & v & Hp & Hlog & Ht & Hr); [by rewrite Hd|].
  rewrite parse_details_eq in Hp.
  destruct d as [|c d]; [done|]. cbn in Hp. rewrite Hobj in Hp.
  injection Hp as <- <-. cbn zeta in Ht, Hr. cbn [app] in Ht.
  rewrite Ht, Hr. clear Ht Hr.
  split.
  - intros rendered Hrendered.
    eexists. split.
    + apply transaction_after_parse_normal.
      unfold transaction_payload.
      rewrite (transaction_prompt_text_object _ _ Hprops).
      by rewrite (append_details_rendered _ _ _ Hrendered).
    + by rewrite user_parts_chat_request.
  - intros Hthrows.
    destruct (append_details_throws props
                (("Analyze this Solana transaction: " +:+ signature
                  +:+ nl +:+ nl) +:+ "Additional details:" +:+ nl)
                Hthrows) as [e He].
    rewrite (transaction_after_parse_throw signature _ (VObj props) e).
    + split; [done|]. by exists e.
    + unfold transaction_payload.
      rewrite (transaction_prompt_text_object _ _ Hprops). by rewrite He.
Qed.

End Properties.

(** * The properties at sample calls *)

Section Samples.
Import Sample.

(** The end-to-end scenario of the specification. *)
Example address_inactive :
  callTool (P := up) "analyze_address" (Some address_only) =
  ([Post (address_request address None)],
   Returned (success (VStr "This address is inactive."))).
Proof. by vm_compute. Qed.

(** A failing upstream: the request is posted, the error is logged and
    returned in the result. *)
Example address_upstream_down :
  callTool (P := down) "analyze_address" (Some address_only) =
  ([Post (address_request address None);
    ConsoleError "Error in analyze_address:"
      (mkError "Request failed with status code 500")],
   Returned
     (failure "Error analyzing address: "
        (mkError "Request failed with status code 500"))).
Proof. by vm_compute. Qed.

(** C1 as stated fails: [image] is supplied as the string [""], and the
    request goes to the text-only model. *)
Lemma model_selection_counterexample :
  as_string (prop ask_empty_image "image") = Some "" ∧
  model <$> posts (callTool (P := up) "ask_grok" (Some ask_empty_image)).1
    = ["grok-2-latest"].
Proof. by vm_compute. Qed.

Lemma model_selection_witness :
  prop ask_picture "question" = VStr "What does this chart show?" ∧
  model <$> posts (callTool (P := up) "ask_grok" (Some ask_picture)).1
    = ["grok-2-vision-latest"].
Proof.
  assert (prop ask_picture "question" = VStr "What does this chart show?")
    as H by (by vm_compute).
  split; [exact H|].
  exact (proj1 (model_selection (P := up)) ask_picture _ H).
Defined.

Lemma failures_are_returned_witness :
  prop address_only "address" = VStr address ∧
  guarded (P := down) "Error analyzing address: "
    (pure (address_request address
             (as_string (prop address_only "screenshot"))))
    (callTool (P := down) "analyze_address" (Some address_only)).
Proof.
  assert (prop address_only "address" = VStr address) as H
    by (by vm_compute).
  split; [exact H|].
  exact (proj1 (proj2 (failures_are_returned (P := down))) address_only _ H).
Defined.

Lemma unknown_tool_raises_witness :
  ("transfer_funds" ∉ (tool_name <$> tools)) ∧
  callTool (P := up) "transfer_funds" (Some address_only) =
    ([], Raised {| code := MethodNotFound;
                   mcp_message := "Unknown tool: transfer_funds" |}).
Proof.
  assert ("transfer_funds" ∉ (tool_name <$> tools)) as H by compute_done.
  split; [exact H|].
  exact (unknown_tool_raises (P := up) _ (Some address_only) H).
Defined.

Lemma missing_required_raises_witness :
  transaction_tool ∈ tools ∧ "signature" ∈ required transaction_tool ∧
  as_string (prop address_only "signature") = None ∧
  callTool (P := up) "analyze_transaction" (Some address_only) =
    ([], Raised {| code := InvalidParams;
                   mcp_message := "Missing required signature parameter" |}).
Proof.
  assert (transaction_tool ∈ tools) as Htool by (by left).
  assert ("signature" ∈ required transaction_tool) as Hf by (by left).
  assert (as_string (prop address_only "signature") = None) as Hs
    by (by vm_compute).
  split; [exact Htool|]. split; [exact Hf|]. split; [exact Hs|].
  exact (missing_required_raises (P := up) transaction_tool "signature"
           (Some address_only) Htool Hf
           (or_intror (ex_intro _ address_only (conj eq_refl Hs)))).
Defined.

Lemma non_string_optional_as_omitted_witness :
  address_tool ∈ tools ∧ optional address_tool "screenshot" ∧
  as_string (VNum 7%Z) = None ∧
  callTool (P := up) "analyze_address"
    (Some (<["screenshot" := VNum 7%Z]> address_only)) =
  callTool (P := up) "analyze_address"
    (Some (delete "screenshot" address_only)).
Proof.
  assert (address_tool ∈ tools) as Htool by (right; by left).
  assert (optional address_tool "screenshot") as Hk by (split; compute_done).
  split; [exact Htool|]. split; [exact Hk|]. split; [reflexivity|].
  exact (proj1 (non_string_optional_as_omitted (P := up) address_tool
                  "screenshot" (VNum 7%Z) address_only Htool Hk eq_refl)).
Defined.

Lemma unparseable_details_as_omitted_witness :
  prop (transaction_with "not json") "signature" = VStr signature ∧
  prop (transaction_with "not json") "details" = VStr "not json" ∧
  JSON_parse (Platform := up) "not json" = Throw Node.SyntaxError ∧
  (callTool (P := up) "analyze_transaction"
     (Some (transaction_with "not json"))).2 =
  (callTool (P := up) "analyze_transaction"
     (Some (delete "details" (transaction_with "not json")))).2.
Proof.
  assert (prop (transaction_with "not json") "signature" = VStr signature)
    as Hs by (by vm_compute).
  assert (prop (transaction_with "not json") "details" = VStr "not json")
    as Hd by (by vm_compute).
  assert (JSON_parse (Platform := up) "not json" = Throw Node.SyntaxError)
    as He by (by vm_compute).
  split; [exact Hs|]. split; [exact Hd|]. split; [exact He|].
  exact (proj2 (proj2 (proj2
           (unparseable_details_as_omitted (P := up) _ _ _ _ Hs Hd He)))).
Defined.

(** C7 as stated fails: the details parse to an object with the key
    [memo], and there is no text part with a line for it, as no request
    is built: the value of [memo] does not render. *)
Lemma details_lines_counterexample :
  JSON_parse (Platform := up) memo_details =
    Normal (VObj [("memo", VObj [("toString", VNum 1%Z)])]) ∧
  callTool (P := up) "analyze_transaction"
    (Some (transaction_with memo_details)) =
  ([ConsoleError "Error in analyze_transaction:"
      (mkError "Cannot convert object to primitive value")],
   Returned
     (failure "Error analyzing transaction: "
        (mkError "Cannot convert object to primitive value"))).
Proof. by vm_compute. Qed.

(** The example of the specification: an [amount] line and no
    [signature] line. *)
Lemma details_lines_witness :
  prop (transaction_with amount_details) "signature" = VStr signature ∧
  prop (transaction_with amount_details) "details" = VStr amount_details ∧
  amount_details ≠ "" ∧
  JSON_parse (Platform := up) amount_details =
    Normal (VObj [("amount", VStr "1.5"); ("signature", VStr "x")]) ∧
  ∃ req,
    posts (callTool (P := up) "analyze_transaction"
             (Some (transaction_with amount_details))).1 = [req] ∧
    user_parts req =
      [TextPart
         ((("Analyze this Solana transaction: " +:+ signature
            +:+ nl +:+ nl) +:+ "Additional details:" +:+ nl) +:+
          ("- amount: 1.5" +:+ nl))].
Proof.
  assert (prop (transaction_with amount_details) "signature"
          = VStr signature) as Hs by (by vm_compute).
  assert (prop (transaction_with amount_details) "details"
          = VStr amount_details) as Hd by (by vm_compute).
  assert (amount_details ≠ "") as Hne by discriminate.
  assert (JSON_parse (Platform := up) amount_details =
            Normal (VObj [("amount", VStr "1.5"); ("signature", VStr "x")]))
    as Hp by (by vm_compute).
  split; [exact Hs|]. split; [exact Hd|]. split; [exact Hne|].
  split; [exact Hp|].
  refine (proj1 (details_lines (P := up) _ _ _ _ Hs Hd Hne Hp _)
            ["1.5"] _); [discriminate|].
  by repeat constructor.
Defined.

(** C8 as stated fails: [image] and [image_url] are both strings, and the
    image part is built from [image_url]. *)
Lemma base64_image_preferred_counterexample :
  as_string (prop image_empty_and_url "image") = Some "" ∧
  as_string (prop image_empty_and_url "image_url") = Some picture_url ∧
  user_parts <$>
    posts (callTool (P := up) "analyze_image"
             (Some image_empty_and_url)).1 =
  [[ImageUrlPart picture_url "high"; TextPart "Describe the chart."]].
Proof. by vm_compute. Qed.

Lemma base64_image_preferred_witness :
  prop image_both "prompt" = VStr "Describe the chart." ∧
  prop image_both "image" = VStr "iVBORw0KGgo=" ∧
  "iVBORw0KGgo=" ≠ "" ∧
  ∃ req,
    posts (callTool (P := up) "analyze_image" (Some image_both)).1 = [req] ∧
    user_parts req =
      [data_url_part "iVBORw0KGgo="; TextPart "Describe the chart."].
Proof.
  assert (prop image_both "prompt" = VStr "Describe the chart.") as Hp
    by (by vm_compute).
  assert (prop image_both "image" = VStr "iVBORw0KGgo=") as Hi
    by (by vm_compute).
  assert ("iVBORw0KGgo=" ≠ "") as Hne by discriminate.
  split; [exact Hp|]. split; [exact Hi|]. split; [exact Hne|].
  exact (proj1 (base64_image_preferred (P := up)) _ _ _ Hp Hi Hne).
Defined.

Lemma empty_optional_as_absent_witness :
  address_tool ∈ tools ∧ optional address_tool "screenshot" ∧
  callTool (P := up) "analyze_address"
    (Some (<["screenshot" := VStr ""]> address_only)) =
  callTool (P := up) "analyze_address"
    (Some (delete "screenshot" address_only)).
Proof.
  assert (address_tool ∈ tools) as Htool by (right; by left).
  assert (optional address_tool "screenshot") as Hk by (split; compute_done).
  split; [exact Htool|]. split; [exact Hk|].
  exact (proj1 (empty_optional_as_absent (P := up)) address_tool
           "screenshot" address_only Htool Hk).
Defined.

Lemma null_details_fail_witness :
  prop (transaction_with "null") "signature" = VStr signature ∧
  prop (transaction_with "null") "details" = VStr "null" ∧
  "null" ≠ "" ∧
  JSON_parse (Platform := up) "null" = Normal VNull ∧
  posts (callTool (P := up) "analyze_transaction"
           (Some (transaction_with "null"))).1 = [].
Proof.
  assert (prop (transaction_with "null") "signature" = VStr signature)
    as Hs by (by vm_compute).
  assert (prop (transaction_with "null") "details" = VStr "null")
    as Hd by (by vm_compute).
  assert ("null" ≠ "") as Hne by discriminate.
  assert (JSON_parse (Platform := up) "null" = Normal VNull) as Hp
    by (by vm_compute).
  split; [exact Hs|]. split; [exact Hd|]. split; [exact Hne|].
  split; [exact Hp|].
  exact (proj1 (proj2 (null_details_fail (P := up) _ _ _ Hs Hd Hne Hp))).
Defined.

End Samples.

(** * Further properties of the server *)

Section More.
Context {P : Platform}.
Implicit Types (a : gmap string val) (args : option (gmap string val)).

#[local] Arguments posts : simpl never.

(** ** A handler, case by case *)

Lemma handler_of_ends label prefix (build : M ChatRequest) :
  settle (handler_of label prefix build) = handler_ends label prefix build.
Proof.
  unfold handler_of, handler_ends.
  destruct build as [t [req|e]]; cbn; [|done].
  destruct (axios_post req) as [data|e]; cbn; [|by rewrite <- app_assoc].
  destruct (first_choice_content data) as [text|e]; cbn;
    by rewrite <- ?app_assoc.
Qed.

Lemma handler_of_pure label prefix (req : ChatRequest) :
  handler_of label prefix (pure req) =
  try_catch (data ← post req; success_result data)
    (error_result label prefix).
Proof.
  unfold handler_of. change (pure req) with (([], Normal req) : M ChatRequest).
  rewrite try_catch_bind_normal. by destruct (try_catch _ _).
Qed.

Lemma builder_transaction a signature :
  builder "analyze_transaction" a signature =
  transaction_request signature
    (as_string (prop a "screenshot")) (as_string (prop a "details")).
Proof. reflexivity. Qed.

Lemma builder_address a address :
  builder "analyze_address" a address =
  pure (address_request address (as_string (prop a "screenshot"))).
Proof. reflexivity. Qed.

Lemma builder_image a prompt :
  builder "analyze_image" a prompt =
  pure (image_request prompt
          (as_string (prop a "image")) (as_string (prop a "image_url"))).
Proof. reflexivity. Qed.

Lemma builder_grok a question :
  builder "ask_grok" a question =
  pure (grok_request question (as_string (prop a "context"))
          (as_string (prop a "image")) (as_string (prop a "image_url"))).
Proof. reflexivity. Qed.

Lemma registered_names name :
  name ∈ (tool_name <$> tools) ↔
  name = "analyze_transaction" ∨ name = "analyze_address" ∨
  name = "analyze_image" ∨ name = "ask_grok".
Proof. unfold tools. cbn. rewrite !elem_of_cons, elem_of_nil. tauto. Qed.

(** How a call ends: rejected before anything happened, for its name or
    for its arguments, or as the handler of its tool over the request
    builder of its tool. *)
Lemma call_cases name args :
  ((name ∉ (tool_name <$> tools)) ∧
   callTool name args =
     ([], Raised {| code := MethodNotFound;
                    mcp_message := "Unknown tool: " +:+ name |})) ∨
  (name ∈ (tool_name <$> tools) ∧
   ∃ msg, callTool name args =
            ([], Raised {| code := InvalidParams; mcp_message := msg |})) ∨
  (∃ a required_value tool,
     args = Some a ∧ tool ∈ tools ∧ tool_name tool = name ∧
     (∀ f, f ∈ required tool → prop a f = VStr required_value) ∧
     callTool name args =
       handler_ends (error_label name) (error_prefix name)
         (builder name a required_value)).
Proof.
  unfold callTool.
  repeat case_decide; subst;
    [| | | |left; split; [rewrite registered_names; tauto|done]];
    (destruct args as [a|];
     [|right; left; split; [compute_done|by eauto]]);
    match goal with
    | |- context [prop a ?f] =>
        destruct (prop a f) as [| | | |s| |] eqn:Hf;
          try (right; left; split; [compute_done|by eauto])
    end; right; right; exists a, s.
  - exists {| tool_name := "analyze_transaction";
              properties := ["signature"; "screenshot"; "details"];
              required := ["signature"] |}.
    split; [done|]. split; [by left|]. split; [done|].
    split; [by intros f ->%list_elem_of_singleton|].
    by rewrite <- handler_of_ends.
  - exists {| tool_name := "analyze_address";
              properties := ["address"; "screenshot"];
              required := ["address"] |}.
    split; [done|]. split; [right; by left|]. split; [done|].
    split; [by intros f ->%list_elem_of_singleton|].
    by rewrite <- handler_of_ends, builder_address, handler_of_pure.
  - exists {| tool_name := "analyze_image";
              properties := ["image"; "prompt"; "image_url"];
              required := ["prompt"] |}.
    split; [done|]. split; [do 2 right; by left|]. split; [done|].
    split; [by intros f ->%list_elem_of_singleton|].
    by rewrite <- handler_of_ends, builder_image, handler_of_pure.
  - exists {| tool_name := "ask_grok";
              properties := ["question"; "context"; "image"; "image_url"];
              required := ["question"] |}.
    split; [done|]. split; [do 3 right; by left|]. split; [done|].
    split; [by intros f ->%list_elem_of_singleton|].
    by rewrite <- handler_of_ends, builder_grok, handler_of_pure.
Qed.

Lemma handler_ends_returned label prefix (build : M ChatRequest) :
  ∃ r, (handler_ends label prefix build).2 = Returned r.
Proof.
  unfold handler_ends. destruct build as [t [req|e]]; [|by eauto].
  destruct (axios_post req) as [data|e]; [|by eauto].
  destruct (first_choice_content data); by eauto.
Qed.

Lemma builder_posts name a v : posts (builder name a v).1 = [].
Proof.
  unfold builder. repeat case_decide; try reflexivity.
  by destruct (transaction_request_eq v (as_string (prop a "screenshot"))
                 (as_string (prop a "details"))) as (t & x & _ & Ht & ->).
Qed.

(** X1. The dispatcher and the registry of [ListTools] name the same
    tools: a call is answered [Unknown tool] exactly when its name is not
    registered, whatever its arguments. *)
Theorem unknown_iff_not_registered name args :
  (∃ msg, (callTool name args).2 =
            Raised {| code := MethodNotFound; mcp_message := msg |}) ↔
  name ∉ (tool_name <$> tools).
Proof.
  destruct (call_cases name args)
    as [[Hname ->] | [[Hname [msg ->]] | (a & v & tool & _ & Htool & <- & _ & ->)]].
  - split; [done|]. by eauto.
  - split; [|done]. by intros [msg' [=]].
  - destruct (handler_ends_returned (error_label (tool_name tool))
                (error_prefix (tool_name tool))
                (builder (tool_name tool) a v)) as [r Hr].
    rewrite Hr. split; [by intros [msg' [=]]|].
    intros []. apply list_elem_of_fmap. eauto.
Qed.

(** X2. A call ends in one of two ways: it is rejected with a protocol
    error before anything happened (nothing posted, nothing logged), or it
    resolves with a tool result after at most one POST.  No other error
    leaves a call. *)
Theorem call_ends name args :
  (∃ e, callTool name args = ([], Raised e)) ∨
  (∃ r, (callTool name args).2 = Returned r ∧
        length (posts (callTool name args).1) ≤ 1).
Proof.
  destruct (call_cases name args)
    as [[_ ->] | [[_ [msg ->]] | (a & v & tool & _ & _ & _ & _ & ->)]];
    [left; by eauto..|right].
  pose proof (builder_posts name a v) as Hb.
  unfold handler_ends.
  destruct (builder name a v) as [t [req|e]]; cbn in Hb.
  - destruct (axios_post req) as [data|e];
      [destruct (first_choice_content data)|];
      eexists; (split; [reflexivity|]); cbn [fst];
      rewrite posts_app, Hb; unfold posts; cbn; lia.
  - eexists. split; [reflexivity|]. cbn [fst].
    rewrite posts_app, Hb. unfold posts. cbn. lia.
Qed.

(** X3. A tool result is the success result, and then the last thing the
    call did is its POST; or it is the failure result of an error, and then
    the last thing the call did is log that error under [Error in <name>:].
    So a result has one text block, its [isError] is absent or [true], and
    every error returned is an error logged. *)
Theorem result_and_last_event name args r :
  (callTool name args).2 = Returned r →
  (∃ text req, r = success text ∧
     last (callTool name args).1 = Some (Post req)) ∨
  (∃ e, r = failure (error_prefix name) e ∧
     last (callTool name args).1 = Some (ConsoleError (error_label name) e)).
Proof.
  destruct (call_cases name args)
    as [[_ ->] | [[_ [msg ->]] | (a & v & tool & _ & _ & _ & _ & ->)]];
    [done..|].
  unfold handler_ends.
  destruct (builder name a v) as [t [req|e]].
  - destruct (axios_post req) as [data|e];
      [destruct (first_choice_content data) as [text|e]|];
      cbn [fst snd]; intros [= <-].
    + left. exists text, req. by rewrite last_snoc.
    + right. exists e. by rewrite last_app.
    + right. exists e. by rewrite last_app.
  - cbn [fst snd]. intros [= <-]. right. exists e. by rewrite last_snoc.
Qed.

Lemma prop_insert_other k k' (v : val) a :
  k ≠ k' → prop (<[k:=v]> a) k' = prop a k'.
Proof. intros Hne. unfold prop. by rewrite lookup_insert_ne. Qed.

(** X4. A property that the schema of the tool does not declare is
    ignored: with it or without it, whatever its value, the call does the
    same and ends the same. *)
Theorem undeclared_property_ignored tool k (v : val) a :
  tool ∈ tools → k ∉ properties tool →
  callTool (tool_name tool) (Some (<[k:=v]> a)) =
  callTool (tool_name tool) (Some a).
Proof.
  intros Htool Hk.
  apply in_tools in Htool as [-> | [-> | [-> | ->]]]; cbn in Hk |- *;
    rewrite !not_elem_of_cons in Hk.
  - rewrite !callTool_transaction.
    by rewrite !(prop_insert_other k) by tauto.
  - rewrite !callTool_address.
    by rewrite !(prop_insert_other k) by tauto.
  - rewrite !callTool_image.
    by rewrite !(prop_insert_other k) by tauto.
  - rewrite !callTool_grok.
    by rewrite !(prop_insert_other k) by tauto.
Qed.


(** ** The request of a call *)

Lemma posts_handler_ends label prefix (build : M ChatRequest) :
  posts build.1 = [] →
  posts (handler_ends label prefix build).1 =
  match build.2 with Normal req => [req] | Throw _ => [] end.
Proof.
  unfold handler_ends. destruct build as [t [req|e]]; cbn [fst snd]; intros Ht.
  - destruct (axios_post req) as [data|e];
      [destruct (first_choice_content data)|];
      cbn [fst]; by rewrite posts_app, Ht.
  - cbn [fst]. by rewrite posts_app, Ht.
Qed.

(** A request that a call posts is the one its builder made, and the call
    is a validated call to a registered tool. *)
Lemma posted_request name args req :
  req ∈ posts (callTool name args).1 →
  ∃ a v tool,
    args = Some a ∧ tool ∈ tools ∧ tool_name tool = name ∧
    (∀ f, f ∈ required tool → prop a f = VStr v) ∧
    (builder name a v).2 = Normal req ∧
    posts (callTool name args).1 = [req] ∧
    callTool name args =
      handler_ends (error_label name) (error_prefix name) (builder name a v).
Proof.
  destruct (call_cases name args)
    as [[_ ->] | [[_ [msg ->]] | (a & v & tool & ? & ? & ? & ? & Hc)]];
    [by intros ?%elem_of_nil..|].
  rewrite Hc, posts_handler_ends by apply builder_posts.
  destruct (_.2) as [req'|] eqn:Hb; [|by intros ?%elem_of_nil].
  intros ->%list_elem_of_singleton. exists a, v, tool. by repeat split.
Qed.

Lemma well_formed_text_then text (images : list ContentPart) :
  (images = [] ∨ ∃ url, images = [ImageUrlPart url "high"]) →
  well_formed_parts (TextPart text :: images) ∧
  well_formed_parts (images ++ [TextPart text]).
Proof.
  intros [-> | [url ->]];
    (split; (split; [by vm_compute|split; [vm_compute; lia|]]));
    intros u d; rewrite ?elem_of_app, !elem_of_cons, ?elem_of_nil;
    intuition congruence.
Qed.

Lemma screenshot_parts_cases screenshot :
  screenshot_parts screenshot = [] ∨
  ∃ url, screenshot_parts screenshot = [ImageUrlPart url "high"].
Proof. destruct screenshot as [[|]|]; cbn; eauto. Qed.

Lemma image_parts_cases image image_url :
  image_parts image image_url = [] ∨
  ∃ url, image_parts image image_url = [ImageUrlPart url "high"].
Proof. destruct image as [[|]|], image_url as [[|]|]; cbn; eauto. Qed.

Lemma image_parts_truthy image image_url :
  truthy image || truthy image_url = false →
  image_parts image image_url = [].
Proof. by destruct image as [[|]|], image_url as [[|]|]. Qed.

(** X5. Every request a call posts has the same shape: the model, the
    system message with the prompt of the tool, one user message, and the
    temperature 0.7.  The user message has one text part and at most one
    image part, of detail [high].  The model is the vision model, except
    for [ask_grok] without an image part, which posts to the text-only
    model: a request with an image part never goes to the text-only
    model. *)
Theorem request_shape name args req :
  req ∈ posts (callTool name args).1 →
  ∃ m parts,
    req = chat_request m (system_prompt name) parts ∧
    well_formed_parts parts ∧
    (m = vision_model ∨
     name = "ask_grok" ∧ m = text_model ∧ filter is_image parts = []).
Proof.
  intros (a & v & tool & _ & Htool & <- & _ & Hb & _)%posted_request.
  apply in_tools in Htool as [-> | [-> | [-> | ->]]]; cbn [tool_name] in *.
  - rewrite builder_transaction in Hb.
    apply transaction_request_inv in Hb as (x & text & _ & _ & ->).
    eexists _, _. split; [reflexivity|]. split; [|by left].
    apply well_formed_text_then, screenshot_parts_cases.
  - rewrite builder_address in Hb. injection Hb as <-.
    eexists _, _. split; [reflexivity|]. split; [|by left].
    apply well_formed_text_then, screenshot_parts_cases.
  - rewrite builder_image in Hb. injection Hb as <-.
    eexists _, _. split; [reflexivity|]. split; [|by left].
    apply well_formed_text_then, image_parts_cases.
  - rewrite builder_grok in Hb. injection Hb as <-.
    eexists _, _. split; [reflexivity|]. split.
    + apply well_formed_text_then, image_parts_cases.
    + destruct (truthy _ || truthy _) eqn:Hi; [by left|right].
      split; [done|]. split; [done|].
      by rewrite (image_parts_truthy _ _ Hi).
Qed.

(** X6. The order of the parts: [analyze_transaction] and
    [analyze_address] put the text first and the screenshot after it;
    [analyze_image] and [ask_grok] put the image first and the text last. *)
Theorem part_order name args req :
  req ∈ posts (callTool name args).1 →
  if bool_decide (name = "analyze_transaction" ∨ name = "analyze_address")
  then ∃ text images,
         user_parts req = TextPart text :: images ∧
         filter is_text images = []
  else ∃ text images,
         user_parts req = images ++ [TextPart text] ∧
         filter is_text images = [].
Proof.
  intros (a & v & tool & _ & Htool & <- & _ & Hb & _)%posted_request.
  apply in_tools in Htool as [-> | [-> | [-> | ->]]]; cbn [tool_name] in *.
  - rewrite builder_transaction in Hb.
    apply transaction_request_inv in Hb as (x & text & _ & _ & ->).
    rewrite bool_decide_true by (by left).
    eexists _, _. rewrite user_parts_chat_request. split; [reflexivity|].
    by destruct (screenshot_parts_cases (as_string (prop a "screenshot")))
      as [-> | [url ->]].
  - rewrite builder_address in Hb. injection Hb as <-.
    rewrite bool_decide_true by (by right).
    eexists _, _. unfold address_request.
    rewrite user_parts_chat_request. split; [reflexivity|].
    by destruct (screenshot_parts_cases (as_string (prop a "screenshot")))
      as [-> | [url ->]].
  - rewrite builder_image in Hb. injection Hb as <-.
    rewrite bool_decide_false by (intros [[=] | [=]]).
    eexists _, _. unfold image_request.
    rewrite user_parts_chat_request. split; [reflexivity|].
    by destruct (image_parts_cases (as_string (prop a "image"))
                   (as_string (prop a "image_url"))) as [-> | [url ->]].
  - rewrite builder_grok in Hb. injection Hb as <-.
    rewrite bool_decide_false by (intros [[=] | [=]]).
    eexists _, _. unfold grok_request.
    rewrite user_parts_chat_request. split; [reflexivity|].
    by destruct (image_parts_cases (as_string (prop a "image"))
                   (as_string (prop a "image_url"))) as [-> | [url ->]].
Qed.


(** ** The response of the upstream *)

Lemma posted_read name args req :
  req ∈ posts (callTool name args).1 →
  (callTool name args).2 =
  Returned
    match axios_post req with
    | Throw e => failure (error_prefix name) e
    | Normal data =>
        match first_choice_content data with
        | Throw e => failure (error_prefix name) e
        | Normal text => success text
        end
    end.
Proof.
  intros (a & v & tool & _ & _ & _ & _ & Hb & _ & ->)%posted_request.
  unfold handler_ends. destruct (builder name a v) as [t c].
  cbn in Hb. subst c.
  destruct (axios_post req) as [data|e]; [|done].
  by destruct (first_choice_content data).
Qed.

(** X7. Of a response that is an object whose [choices] is an array
    starting with an object whose [message] is an object, the call returns
    the [content] of that message as a success: the other choices and all
    other fields are not read, and a message without [content] is no
    error, its text is [undefined]. *)
Theorem first_choice_is_returned name args req
    (props cprops mprops : list (string * val)) (others : list val) :
  req ∈ posts (callTool name args).1 →
  axios_post req = Normal (VObj props) →
  own props "choices" = Some (VArr (VObj cprops :: others)) →
  own cprops "message" = Some (VObj mprops) →
  (callTool name args).2 =
    Returned (success (default VUndef (own mprops "content"))).
Proof.
  intros Hreq Hdata Hchoices Hmessage.
  rewrite (posted_read name args req Hreq), Hdata.
  unfold first_choice_content. cbn [get]. rewrite Hchoices. cbn.
  by rewrite Hmessage.
Qed.

(** X8. A response object without [choices], or whose [choices] is the
    empty array, is an error of the call, not of the protocol: the result
    is the failure result of the [TypeError] for reading [0], or [message],
    of [undefined]. *)
Theorem response_without_choice_fails name args req
    (props : list (string * val)) :
  req ∈ posts (callTool name args).1 →
  axios_post req = Normal (VObj props) →
  (own props "choices" = None →
   (callTool name args).2 =
     Returned (failure (error_prefix name)
                 (TypeError (ReadPropertyOfNullish false "0")))) ∧
  (own props "choices" = Some (VArr []) →
   (callTool name args).2 =
     Returned (failure (error_prefix name)
                 (TypeError (ReadPropertyOfNullish false "message")))).
Proof.
  intros Hreq Hdata.
  rewrite (posted_read name args req Hreq), Hdata.
  unfold first_choice_content. cbn [get].
  split; by intros ->.
Qed.


(** ** More on the details of a transaction *)

Lemma string_app_empty (s : string) : s +:+ "" = s.
Proof. induction s as [|c s IH]; [done|]. exact (f_equal (String c) IH). Qed.

Lemma append_details_extends (entries : list (string * val)) acc text :
  append_details entries acc = Normal text → ∃ more, text = acc +:+ more.
Proof.
  revert acc. induction entries as [|[key value] entries IH]; intros acc.
  - intros [= <-]. exists "". by rewrite string_app_empty.
  - cbn [append_details]. case_decide; [by apply IH|].
    destruct (ToString value) as [s|e]; [|done].
    intros (more & ->)%IH. eexists. by rewrite string_app_assoc.
Qed.

Lemma transaction_prompt_text_extends signature (v : val) text :
  transaction_prompt_text signature v = Normal text →
  ∃ more,
    text = ("Analyze this Solana transaction: " +:+ signature
            +:+ nl +:+ nl) +:+ more.
Proof.
  unfold transaction_prompt_text.
  destruct (Object_keys v) as [keys|e] eqn:Hkeys; [|done]. cbn.
  case_bool_decide.
  - destruct (Object_entries v) as [entries|e]; [|done]. cbn.
    intros (more & ->)%append_details_extends.
    eexists. by rewrite string_app_assoc.
  - intros [= <-]. exists "". by rewrite string_app_empty.
Qed.

(** X9. Whatever the details are, the text of a transaction request
    starts with the line of the signature: what the details add comes
    after it. *)
Theorem transaction_text_starts_with_signature a signature req :
  prop a "signature" = VStr signature →
  req ∈ posts (callTool "analyze_transaction" (Some a)).1 →
  ∃ more images,
    user_parts req =
      TextPart (("Analyze this Solana transaction: " +:+ signature
                 +:+ nl +:+ nl) +:+ more) :: images.
Proof.
  intros Hs. rewrite (posts_transaction a signature Hs).
  destruct (_.2) as [req'|] eqn:Hreq; [|by intros ?%elem_of_nil].
  intros ->%list_elem_of_singleton.
  apply transaction_request_inv in Hreq as (v & text & _ & Htext & ->).
  apply transaction_prompt_text_extends in Htext as (more & ->).
  exists more. eexists. by rewrite user_parts_chat_request.
Qed.

Lemma transaction_payload_no_entries signature screenshot (v : val) :
  Object_entries v = Normal [] →
  transaction_payload signature screenshot v =
  transaction_payload signature screenshot (VObj []).
Proof.
  intros H. unfold transaction_payload, transaction_prompt_text, Object_keys.
  by rewrite H.
Qed.

(** X10. Details that are valid JSON for a value without entries (a number,
    a boolean, the empty object, the empty array, the empty string) change
    nothing: the call does and ends as the call without [details]. *)
Theorem details_without_entries_as_omitted a signature d (v : val) :
  prop a "signature" = VStr signature →
  prop a "details" = VStr d → d ≠ "" →
  JSON_parse d = Normal v →
  Object_entries v = Normal [] →
  callTool "analyze_transaction" (Some a) =
  callTool "analyze_transaction" (Some (delete "details" a)).
Proof.
  intros Hs Hd Hne Hparse Hentries.
  destruct (callTool_transaction_details a signature (Some d) Hs)
    as (log & x & Hp & _ & Ht & Hr); [by rewrite Hd|].
  rewrite parse_details_eq in Hp.
  destruct d as [|c d]; [done|]. cbn in Hp. rewrite Hparse in Hp.
  injection Hp as <- <-.
  destruct (callTool_transaction_details (delete "details" a) signature
              None) as (log' & x' & Hp' & _ & Ht' & Hr').
  { by rewrite prop_delete_ne. }
  { by rewrite prop_delete_eq. }
  injection Hp' as <- <-.
  rewrite (prop_delete_ne "details" "screenshot") in Ht', Hr' by done.
  cbn zeta in *.
  rewrite (callTool_pair _ (Some a)), (callTool_pair _ (Some (delete _ _))).
  rewrite Ht, Hr, Ht', Hr'.
  unfold transaction_after_parse.
  by rewrite (transaction_payload_no_entries _ _ v Hentries).
Qed.

(** X11. Details that parse to any value with entries are listed by
    entry: the elements of an array under their indices, the code units of
    a string under theirs, like the values of an object under their keys.
    When each entry not called [signature] renders, the text is the
    prompt, the line [Additional details:], and the line of each such
    entry, in the order of [Object.entries]. *)
Theorem details_entries_lines a signature d (v : val) entries rendered :
  prop a "signature" = VStr signature →
  prop a "details" = VStr d → d ≠ "" →
  JSON_parse d = Normal v →
  Object_entries v = Normal entries → entries ≠ [] →
  Forall2 (λ kv s, ToString kv.2 = Normal s)
    (filter (λ kv, kv.1 ≠ "signature") entries) rendered →
  ∃ req, posts (callTool "analyze_transaction" (Some a)).1 = [req] ∧
    user_parts req =
      TextPart
        ((("Analyze this Solana transaction: " +:+ signature
           +:+ nl +:+ nl) +:+ "Additional details:" +:+ nl) +:+
         text_of_lines
           (zip_with detail_line
              (filter (λ kv, kv.1 ≠ "signature") entries).*1 rendered))
      :: screenshot_parts (as_string (prop a "screenshot")).
Proof.
  intros Hs Hd Hne Hparse Hentries Hsome Hrendered.
  destruct (callTool_transaction_details a signature (Some d) Hs)
    as (log & x & Hp & _ & Ht & _); [by rewrite Hd|].
  rewrite parse_details_eq in Hp.
  destruct d as [|c d]; [done|]. cbn in Hp. rewrite Hparse in Hp.
  injection Hp as <- <-. cbn zeta in Ht. cbn [app] in Ht. rewrite Ht.
  eexists. split.
  - apply transaction_after_parse_normal.
    unfold transaction_payload, transaction_prompt_text, Object_keys.
    rewrite Hentries. cbn.
    rewrite bool_decide_true
      by (rewrite length_fmap; destruct entries; [done|cbn; lia]).
    by rewrite (append_details_rendered _ _ _ Hrendered).
  - by rewrite user_parts_chat_request.
Qed.


(** ** Values that render *)

(** Induction on a value, with the elements of an array and the values of
    an object as smaller values. *)
Lemma value_nested_ind {number} (Q : value number → Prop) :
  Q VUndef → Q VNull → (∀ b, Q (VBool b)) → (∀ n, Q (VNum n)) →
  (∀ s, Q (VStr s)) →
  (∀ l, Forall Q l → Q (VArr l)) →
  (∀ props, Forall (λ kv, Q kv.2) props → Q (VObj props)) →
  ∀ v, Q v.
Proof.
  intros Hundef Hnull Hbool Hnum Hstr Harr Hobj.
  fix IH 1.
  intros [| |b|n|s|l|props];
    [apply Hundef|apply Hnull|apply Hbool|apply Hnum|apply Hstr| |].
  - apply Harr. induction l as [|x l IHl]; constructor; [apply IH|apply IHl].
  - apply Hobj. induction props as [|[k x] props IHprops]; constructor;
      [apply IH|apply IHprops].
Qed.

Lemma mentions_toString_arr {number} (x : value number) l :
  mentions_toString (VArr (x :: l)) =
  mentions_toString x || mentions_toString (VArr l).
Proof. reflexivity. Qed.

Lemma mentions_toString_obj {number} k (x : value number) props :
  mentions_toString (VObj ((k, x) :: props)) =
  bool_decide (k = "toString") || mentions_toString x ||
  mentions_toString (VObj props).
Proof. reflexivity. Qed.

Lemma own_toString_mentions (props : list (string * val)) x :
  own props "toString" = Some x → mentions_toString (VObj props) = true.
Proof.
  induction props as [|[k y] props IH]; [done|].
  rewrite mentions_toString_obj. cbn [own]. case_decide as Hk.
  - intros _. by rewrite bool_decide_true.
  - intros ?%IH. rewrite orb_true_iff. by right.
Qed.

(** A value in which no object has a key [toString] renders. *)
Lemma ToString_renders (v : val) :
  mentions_toString v = false → ∃ s, ToString v = Normal s.
Proof.
  induction v as [| |[]|n|s|l IH|props _] using value_nested_ind;
    try (intros _; by eauto).
  - induction l as [|x l IHl]; [by eauto|].
    rewrite mentions_toString_arr, orb_false_iff. intros [Hx Hl].
    apply Forall_cons in IH as [IHx IH].
    destruct (IHl IH Hl) as [r Hr]. destruct (IHx Hx) as [sx Hsx].
    assert (∃ s, match x with
                 | VUndef | VNull => Normal ""
                 | _ => ToString x
                 end = Normal s) as [s' Hs'] by (destruct x; eauto).
    destruct l as [|y l].
    + exists s'. exact Hs'.
    + exists (s' +:+ "," +:+ r).
      change (ToString (VArr (x :: y :: l))) with
        (match (match x with
                | VUndef | VNull => Normal ""
                | _ => ToString x
                end) with
         | Throw e => Throw e
         | Normal s =>
             match ToString (VArr (y :: l)) with
             | Throw e => Throw e
             | Normal r => Normal (s +:+ "," +:+ r)
             end
         end).
      by rewrite Hs', Hr.
  - intros Hm. cbn [ToString].
    destruct (own props "toString") as [x|] eqn:Hown; [|by eauto].
    apply own_toString_mentions in Hown. congruence.
Qed.


Lemma arr_without_toString {number} (l : list (value number)) :
  mentions_toString (VArr l) = false →
  Forall (λ x, mentions_toString x = false) l.
Proof.
  induction l as [|x l IH]; [by constructor|].
  rewrite mentions_toString_arr, orb_false_iff. intros [Hx Hl].
  constructor; [done|by apply IH].
Qed.

Lemma obj_without_toString {number} (props : list (string * value number)) :
  mentions_toString (VObj props) = false →
  Forall (λ kv, mentions_toString kv.2 = false) props.
Proof.
  induction props as [|[k x] props IH]; [by constructor|].
  rewrite mentions_toString_obj, !orb_false_iff. intros [[_ Hx] Hprops].
  constructor; [done|by apply IH].
Qed.

Lemma Forall_indexed {A B} (Q : B → Prop) (g : nat → string) (h : A → B)
    (l : list A) :
  Forall (λ x, Q (h x)) l →
  Forall (λ kv, Q kv.2) (imap (λ i x, (g i, h x)) l).
Proof.
  intros H. revert g. induction H as [|x l Hx _ IH]; intros g.
  - constructor.
  - cbn. constructor; [done|]. apply (IH (g ∘ S)).
Qed.

Lemma entries_without_toString (v : val) entries :
  Object_entries v = Normal entries →
  mentions_toString v = false →
  Forall (λ kv, mentions_toString kv.2 = false) entries.
Proof.
  destruct v as [| |b|n|s|l|props]; cbn [Object_entries];
    intros [= <-] Hv; try by constructor.
  - apply (Forall_indexed (λ x : val, mentions_toString x = false) _ VStr).
    by apply Forall_true.
  - apply (Forall_indexed (λ x : val, mentions_toString x = false) _ id).
    by apply arr_without_toString.
  - by apply obj_without_toString.
Qed.

Lemma append_details_renders (entries : list (string * val)) acc :
  Forall (λ kv, mentions_toString kv.2 = false) entries →
  ∃ text, append_details entries acc = Normal text.
Proof.
  intros H. revert acc. induction H as [|[key value] entries Hx _ IH];
    intros acc; [by eauto|].
  cbn [append_details]. case_decide; [by apply IH|].
  destruct (ToString_renders value Hx) as [s ->]. apply IH.
Qed.

(** X12. Details in which no object has a key [toString] never stop the
    request: whatever value they parse to, short of [null], the request is
    built and posted. *)
Theorem details_without_toString_are_posted a signature d (v : val) entries :
  prop a "signature" = VStr signature →
  prop a "details" = VStr d → d ≠ "" →
  JSON_parse d = Normal v →
  Object_entries v = Normal entries →
  mentions_toString v = false →
  ∃ req, posts (callTool "analyze_transaction" (Some a)).1 = [req].
Proof.
  intros Hs Hd Hne Hparse Hentries Hv.
  destruct (callTool_transaction_details a signature (Some d) Hs)
    as (log & x & Hp & _ & Ht & _); [by rewrite Hd|].
  rewrite parse_details_eq in Hp.
  destruct d as [|c d]; [done|]. cbn in Hp. rewrite Hparse in Hp.
  injection Hp as <- <-. cbn zeta in Ht. cbn [app] in Ht. rewrite Ht.
  pose proof (entries_without_toString v entries Hentries Hv) as Hall.
  assert (∃ text, transaction_prompt_text signature v = Normal text)
    as [text Htext].
  { unfold transaction_prompt_text, Object_keys. rewrite Hentries. cbn.
    case_bool_decide; [|by eauto]. by apply append_details_renders. }
  eexists. apply transaction_after_parse_normal.
  unfold transaction_payload. by rewrite Htext.
Qed.


(** ** Screenshots, image addresses, and the key *)

(** X13. A validated [analyze_address] call posts one request, whatever
    the upstream then does: to the vision model, with the prompt of the
    address analyst, the text [Analyze this Solana address: <address>],
    and after it, when the screenshot is a non-empty string, the
    screenshot as a JPEG data URL of high detail. *)
Theorem address_call_posts a address :
  prop a "address" = VStr address →
  posts (callTool "analyze_address" (Some a)).1 =
  [chat_request vision_model address_system_prompt
     (TextPart ("Analyze this Solana address: " +:+ address) ::
      match present (as_string (prop a "screenshot")) with
      | Some s => [ImageUrlPart ("data:image/jpeg;base64," +:+ s) "high"]
      | None => []
      end)].
Proof.
  intros H. rewrite (posts_address a address H).
  by destruct (as_string _) as [[|]|].
Qed.

(** X14. When [image] is absent, empty or no string and [image_url] is a
    non-empty string, [analyze_image] and [ask_grok] send the address as it
    is, as the one image part before the text, and [ask_grok] posts to the
    vision model. *)
Theorem image_url_is_used_without_image a required_value url :
  present (as_string (prop a "image")) = None →
  prop a "image_url" = VStr url → url ≠ "" →
  (prop a "prompt" = VStr required_value →
   user_parts <$> posts (callTool "analyze_image" (Some a)).1 =
     [[ImageUrlPart url "high"; TextPart required_value]]) ∧
  (prop a "question" = VStr required_value →
   ∃ req text,
     posts (callTool "ask_grok" (Some a)).1 = [req] ∧
     model req = vision_model ∧
     user_parts req = [ImageUrlPart url "high"; TextPart text]).
Proof.
  intros Hi Hu Hne. split; intros Hr.
  - rewrite (posts_image a _ Hr), image_request_present, Hi, Hu.
    by destruct url.
  - eexists _, _. split; [by apply posts_grok|].
    rewrite grok_request_present, Hi, Hu. by destruct url.
Qed.

(** X15. A transaction call with a non-empty screenshot sends two parts:
    the text, then the screenshot as a JPEG data URL of high detail. *)
Theorem transaction_screenshot_follows_text a signature screenshot req :
  prop a "signature" = VStr signature →
  prop a "screenshot" = VStr screenshot → screenshot ≠ "" →
  req ∈ posts (callTool "analyze_transaction" (Some a)).1 →
  ∃ text,
    user_parts req =
      [TextPart text;
       ImageUrlPart ("data:image/jpeg;base64," +:+ screenshot) "high"].
Proof.
  intros Hs Hshot Hne. rewrite (posts_transaction a signature Hs).
  destruct (_.2) as [req'|] eqn:Hreq; [|by intros ?%elem_of_nil].
  intros ->%list_elem_of_singleton.
  apply transaction_request_inv in Hreq as (v & text & _ & _ & ->).
  exists text. rewrite user_parts_chat_request, Hshot. by destruct screenshot.
Qed.

(** X16. The server starts only with a key: the constructor throws
    [XAI_API_KEY environment variable is required] when the variable is
    not set or is empty, and otherwise keeps the variable as it is. *)
Theorem server_requires_key (XAI_API_KEY : option string) :
  match GrokAIServer XAI_API_KEY with
  | Normal apiKey => XAI_API_KEY = Some apiKey ∧ apiKey ≠ ""
  | Throw e =>
      (XAI_API_KEY = None ∨ XAI_API_KEY = Some "") ∧
      message e = "XAI_API_KEY environment variable is required"
  end.
Proof. destruct XAI_API_KEY as [[|c key]|]; cbn; auto. Qed.


(** X17. Details that [JSON.parse] rejects are logged once, under
    [Error parsing details:], before anything else; after that the call
    does what the call without [details] does. *)
Theorem unparseable_details_are_logged a signature d e :
  prop a "signature" = VStr signature →
  prop a "details" = VStr d → d ≠ "" →
  JSON_parse d = Throw e →
  (callTool "analyze_transaction" (Some a)).1 =
  ConsoleError "Error parsing details:" e ::
  (callTool "analyze_transaction" (Some (delete "details" a))).1.
Proof.
  intros Hs Hd Hne Hparse.
  destruct (callTool_transaction_details a signature (Some d) Hs)
    as (log & x & Hp & _ & Ht & _); [by rewrite Hd|].
  rewrite parse_details_eq in Hp.
  destruct d as [|c d]; [done|]. cbn in Hp. rewrite Hparse in Hp.
  injection Hp as <- <-.
  destruct (callTool_transaction_details (delete "details" a) signature
              None) as (log' & x' & Hp' & _ & Ht' & _).
  { by rewrite prop_delete_ne. }
  { by rewrite prop_delete_eq. }
  injection Hp' as <- <-.
  rewrite (prop_delete_ne "details" "screenshot") in Ht' by done.
  cbn zeta in *. by rewrite Ht, Ht'.
Qed.


End More.


(** * The further properties at sample calls *)

Section MoreSamples.
Import Sample MoreSample.

Lemma result_and_last_event_witness :
  (callTool (P := down) "analyze_address" (Some address_only)).2 =
    Returned (failure "Error analyzing address: "
                (mkError "Request failed with status code 500")) ∧
  ((∃ text req,
      failure (P := down) "Error analyzing address: "
        (mkError "Request failed with status code 500") = success text ∧
      last (callTool (P := down) "analyze_address" (Some address_only)).1 =
        Some (Post req)) ∨
   (∃ e,
      failure (P := down) "Error analyzing address: "
        (mkError "Request failed with status code 500") =
        failure (error_prefix "analyze_address") e ∧
      last (callTool (P := down) "analyze_address" (Some address_only)).1 =
        Some (ConsoleError (error_label "analyze_address") e))).
Proof.
  assert ((callTool (P := down) "analyze_address" (Some address_only)).2 =
            Returned (failure "Error analyzing address: "
                        (mkError "Request failed with status code 500")))
    as H by (by vm_compute).
  split; [exact H|].
  exact (result_and_last_event (P := down) _ _ _ H).
Defined.

Lemma undeclared_property_ignored_witness :
  address_tool ∈ tools ∧ ("details" ∉ properties address_tool) ∧
  callTool (P := up) "analyze_address"
    (Some (<["details" := VStr "null"]> address_only)) =
  callTool (P := up) "analyze_address" (Some address_only).
Proof.
  assert (address_tool ∈ tools) as Htool by (right; by left).
  assert ("details" ∉ properties address_tool) as Hk by compute_done.
  split; [exact Htool|]. split; [exact Hk|].
  exact (undeclared_property_ignored (P := up) address_tool "details"
           (VStr "null") address_only Htool Hk).
Defined.

Lemma request_shape_witness :
  address_request address None ∈
    posts (callTool (P := up) "analyze_address" (Some address_only)).1 ∧
  ∃ m parts,
    address_request address None =
      chat_request m (system_prompt "analyze_address") parts ∧
    well_formed_parts parts ∧
    (m = vision_model ∨
     "analyze_address" = "ask_grok" ∧ m = text_model ∧
     filter is_image parts = []).
Proof.
  assert (address_request address None ∈
            posts (callTool (P := up) "analyze_address"
                     (Some address_only)).1) as H
    by (vm_compute; by left).
  split; [exact H|].
  exact (request_shape (P := up) _ _ _ H).
Defined.

Lemma part_order_witness :
  transaction_screenshot_request ∈
    posts (callTool (P := up) "analyze_transaction"
             (Some transaction_with_screenshot)).1 ∧
  ∃ text images,
    user_parts transaction_screenshot_request = TextPart text :: images ∧
    filter is_text images = [].
Proof.
  assert (transaction_screenshot_request ∈
            posts (callTool (P := up) "analyze_transaction"
                     (Some transaction_with_screenshot)).1) as H
    by (vm_compute; by left).
  split; [exact H|].
  exact (part_order (P := up) "analyze_transaction" _ _ H).
Defined.

Lemma first_choice_is_returned_witness :
  address_request address None ∈
    posts (callTool (P := contentless) "analyze_address"
             (Some address_only)).1 ∧
  (callTool (P := contentless) "analyze_address" (Some address_only)).2 =
    Returned (success VUndef).
Proof.
  assert (address_request address None ∈
            posts (callTool (P := contentless) "analyze_address"
                     (Some address_only)).1) as H
    by (vm_compute; by left).
  split; [exact H|].
  exact (first_choice_is_returned (P := contentless) _ _ _ _
           [("message", VObj [("role", VStr "assistant")])]
           [("role", VStr "assistant")] _ H eq_refl eq_refl eq_refl).
Defined.

Lemma response_without_choice_fails_witness :
  address_request address None ∈
    posts (callTool (P := choiceless) "analyze_address"
             (Some address_only)).1 ∧
  (callTool (P := choiceless) "analyze_address" (Some address_only)).2 =
    Returned
      (failure "Error analyzing address: "
         (mkError "Cannot read properties of undefined (reading 'message')")).
Proof.
  assert (address_request address None ∈
            posts (callTool (P := choiceless) "analyze_address"
                     (Some address_only)).1) as H
    by (vm_compute; by left).
  split; [exact H|].
  exact (proj2 (response_without_choice_fails (P := choiceless) _ _ _
                  [("choices", VArr [])] H eq_refl) eq_refl).
Defined.

Lemma transaction_text_starts_with_signature_witness :
  prop transaction_only "signature" = VStr signature ∧
  transaction_only_request ∈
    posts (callTool (P := up) "analyze_transaction"
             (Some transaction_only)).1 ∧
  ∃ more images,
    user_parts transaction_only_request =
      TextPart (("Analyze this Solana transaction: " +:+ signature
                 +:+ nl +:+ nl) +:+ more) :: images.
Proof.
  assert (prop transaction_only "signature" = VStr signature) as Hs
    by (by vm_compute).
  assert (transaction_only_request ∈
            posts (callTool (P := up) "analyze_transaction"
                     (Some transaction_only)).1) as H
    by (vm_compute; by left).
  split; [exact Hs|]. split; [exact H|].
  exact (transaction_text_starts_with_signature (P := up) _ _ _ Hs H).
Defined.

Lemma details_without_entries_as_omitted_witness :
  prop (transaction_with "42") "signature" = VStr signature ∧
  prop (transaction_with "42") "details" = VStr "42" ∧
  "42" ≠ "" ∧
  JSON_parse (Platform := up) "42" = Normal (VNum 42%Z) ∧
  Object_entries (P := up) (VNum 42%Z) = Normal [] ∧
  callTool (P := up) "analyze_transaction" (Some (transaction_with "42")) =
  callTool (P := up) "analyze_transaction"
    (Some (delete "details" (transaction_with "42"))).
Proof.
  assert (prop (transaction_with "42") "signature" = VStr signature) as Hs
    by (by vm_compute).
  assert (prop (transaction_with "42") "details" = VStr "42") as Hd
    by (by vm_compute).
  assert ("42" ≠ "") as Hne by discriminate.
  assert (JSON_parse (Platform := up) "42" = Normal (VNum 42%Z)) as Hp
    by (by vm_compute).
  split; [exact Hs|]. split; [exact Hd|]. split; [exact Hne|].
  split; [exact Hp|]. split; [reflexivity|].
  exact (details_without_entries_as_omitted (P := up) _ _ _ _
           Hs Hd Hne Hp eq_refl).
Defined.

Lemma details_entries_lines_witness :
  prop (transaction_with "[10,20]") "signature" = VStr signature ∧
  prop (transaction_with "[10,20]") "details" = VStr "[10,20]" ∧
  "[10,20]" ≠ "" ∧
  JSON_parse (Platform := up) "[10,20]" =
    Normal (VArr [VNum 10%Z; VNum 20%Z]) ∧
  Object_entries (P := up) (VArr [VNum 10%Z; VNum 20%Z]) =
    Normal [("0", VNum 10%Z); ("1", VNum 20%Z)] ∧
  ∃ req,
    posts (callTool (P := up) "analyze_transaction"
             (Some (transaction_with "[10,20]"))).1 = [req] ∧
    user_parts req =
      [TextPart
         ((("Analyze this Solana transaction: " +:+ signature
            +:+ nl +:+ nl) +:+ "Additional details:" +:+ nl) +:+
          ("- 0: 10" +:+ nl +:+ "- 1: 20" +:+ nl))].
Proof.
  assert (prop (transaction_with "[10,20]") "signature" = VStr signature)
    as Hs by (by vm_compute).
  assert (prop (transaction_with "[10,20]") "details" = VStr "[10,20]")
    as Hd by (by vm_compute).
  assert ("[10,20]" ≠ "") as Hne by discriminate.
  assert (JSON_parse (Platform := up) "[10,20]" =
            Normal (VArr [VNum 10%Z; VNum 20%Z])) as Hp by (by vm_compute).
  assert (Object_entries (P := up) (VArr [VNum 10%Z; VNum 20%Z]) =
            Normal [("0", VNum 10%Z); ("1", VNum 20%Z)]) as He
    by (by vm_compute).
  split; [exact Hs|]. split; [exact Hd|]. split; [exact Hne|].
  split; [exact Hp|]. split; [exact He|].
  refine (details_entries_lines (P := up) _ _ _ _ _ ["10"; "20"]
            Hs Hd Hne Hp He _ _); [discriminate|].
  by repeat constructor.
Defined.

Lemma details_without_toString_are_posted_witness :
  prop (transaction_with amount_details) "signature" = VStr signature ∧
  prop (transaction_with amount_details) "details" = VStr amount_details ∧
  amount_details ≠ "" ∧
  JSON_parse (Platform := up) amount_details =
    Normal (VObj [("amount", VStr "1.5"); ("signature", VStr "x")]) ∧
  mentions_toString
    (VObj [("amount", VStr "1.5"); ("signature", VStr "x")] : value Z)
    = false ∧
  ∃ req,
    posts (callTool (P := up) "analyze_transaction"
             (Some (transaction_with amount_details))).1 = [req].
Proof.
  assert (prop (transaction_with amount_details) "signature"
          = VStr signature) as Hs by (by vm_compute).
  assert (prop (transaction_with amount_details) "details"
          = VStr amount_details) as Hd by (by vm_compute).
  assert (amount_details ≠ "") as Hne by discriminate.
  assert (JSON_parse (Platform := up) amount_details =
            Normal (VObj [("amount", VStr "1.5"); ("signature", VStr "x")]))
    as Hp by (by vm_compute).
  split; [exact Hs|]. split; [exact Hd|]. split; [exact Hne|].
  split; [exact Hp|]. split; [reflexivity|].
  exact (details_without_toString_are_posted (P := up) _ _ _ _ _
           Hs Hd Hne Hp eq_refl eq_refl).
Defined.

Lemma address_call_posts_witness :
  prop address_with_screenshot "address" = VStr address ∧
  posts (callTool (P := down) "analyze_address"
           (Some address_with_screenshot)).1 =
  [chat_request vision_model address_system_prompt
     [TextPart ("Analyze this Solana address: " +:+ address);
      ImageUrlPart ("data:image/jpeg;base64," +:+ screenshot) "high"]].
Proof.
  assert (prop address_with_screenshot "address" = VStr address) as H
    by (by vm_compute).
  split; [exact H|].
  exact (address_call_posts (P := down) _ _ H).
Defined.

Lemma image_url_is_used_without_image_witness :
  present (as_string (prop image_empty_and_url "image")) = None ∧
  prop image_empty_and_url "image_url" = VStr picture_url ∧
  picture_url ≠ "" ∧
  prop image_empty_and_url "prompt" = VStr "Describe the chart." ∧
  user_parts <$>
    posts (callTool (P := up) "analyze_image"
             (Some image_empty_and_url)).1 =
  [[ImageUrlPart picture_url "high"; TextPart "Describe the chart."]].
Proof.
  assert (present (as_string (prop image_empty_and_url "image")) = None)
    as Hi by (by vm_compute).
  assert (prop image_empty_and_url "image_url" = VStr picture_url) as Hu
    by (by vm_compute).
  assert (picture_url ≠ "") as Hne by discriminate.
  assert (prop image_empty_and_url "prompt" = VStr "Describe the chart.")
    as Hp by (by vm_compute).
  split; [exact Hi|]. split; [exact Hu|]. split; [exact Hne|].
  split; [exact Hp|].
  exact (proj1 (image_url_is_used_without_image (P := up) _ _ _ Hi Hu Hne)
           Hp).
Defined.

Lemma transaction_screenshot_follows_text_witness :
  prop transaction_with_screenshot "signature" = VStr signature ∧
  prop transaction_with_screenshot "screenshot" = VStr screenshot ∧
  screenshot ≠ "" ∧
  transaction_screenshot_request ∈
    posts (callTool (P := up) "analyze_transaction"
             (Some transaction_with_screenshot)).1 ∧
  ∃ text,
    user_parts transaction_screenshot_request =
      [TextPart text;
       ImageUrlPart ("data:image/jpeg;base64," +:+ screenshot) "high"].
Proof.
  assert (prop transaction_with_screenshot "signature" = VStr signature)
    as Hs by (by vm_compute).
  assert (prop transaction_with_screenshot "screenshot" = VStr screenshot)
    as Hshot by (by vm_compute).
  assert (screenshot ≠ "") as Hne by discriminate.
  assert (transaction_screenshot_request ∈
            posts (callTool (P := up) "analyze_transaction"
                     (Some transaction_with_screenshot)).1) as H
    by (vm_compute; by left).
  split; [exact Hs|]. split; [exact Hshot|]. split; [exact Hne|].
  split; [exact H|].
  exact (transaction_screenshot_follows_text (P := up) _ _ _ _
           Hs Hshot Hne H).
Defined.

Lemma unparseable_details_are_logged_witness :
  prop (transaction_with "not json") "signature" = VStr signature ∧
  prop (transaction_with "not json") "details" = VStr "not json" ∧
  "not json" ≠ "" ∧
  JSON_parse (Platform := up) "not json" = Throw Node.SyntaxError ∧
  (callTool (P := up) "analyze_transaction"
     (Some (transaction_with "not json"))).1 =
  ConsoleError "Error parsing details:" Node.SyntaxError ::
  (callTool (P := up) "analyze_transaction"
     (Some (delete "details" (transaction_with "not json")))).1.
Proof.
  assert (prop (transaction_with "not json") "signature" = VStr signature)
    as Hs by (by vm_compute).
  assert (prop (transaction_with "not json") "details" = VStr "not json")
    as Hd by (by vm_compute).
  assert ("not json" ≠ "") as Hne by discriminate.
  assert (JSON_parse (Platform := up) "not json" = Throw Node.SyntaxError)
    as He by (by vm_compute).
  split; [exact Hs|]. split; [exact Hd|]. split; [exact Hne|].
  split; [exact He|].
  exact (unparseable_details_are_logged (P := up) _ _ _ _ Hs Hd Hne He).
Defined.


End MoreSamples.
